(** * GorkBot on Fastly Compute: the Discord interactions endpoint

    A shallow embedding of [src/fastly-gorkbot.js]: the signature check
    ([verifyDiscordSignature], [hexToBytes]) and the handler of
    [POST /interactions], with the JavaScript built-ins they call
    ([parseInt], [String.prototype.substr], [Uint8Array] stores,
    [TextEncoder], [Request.text], property reads, [===]).

    JavaScript strings are sequences of UTF-16 code units, bytes are
    integers in [0, 256), objects are finite maps from property names to
    values.  The cryptographic primitive and [JSON.parse] belong to the
    host; they are the fields of the [Platform] class. *)

From Stdlib Require Import ZArith QArith Qround Lia List String Ascii.
From stdpp Require Import base option list gmap.

Close Scope Q_scope.
Open Scope Z_scope.

Set Warnings "-register-all".

(** ** Strings *)

(** A JavaScript string: its UTF-16 code units. *)
Abbreviation jsstring := (list Z).

(** The code units of an ASCII literal. *)
Definition str (s : string) : jsstring :=
  (fun a => Z.of_nat (nat_of_ascii a)) <$> list_ascii_of_string s.

(** [s.substr(start, length)] for [0 <= start]. *)
Definition substr (s : jsstring) (start length : nat) : jsstring :=
  take length (drop start s).

(** ** Exceptions and completions *)

Inductive exn :=
  | TypeError
  | SyntaxError
  | DOMException (name : string).

(** What evaluating an expression, or awaiting a promise, yields. *)
Inductive completion (A : Type) :=
  | Return (a : A)
  | Throw (e : exn).
Arguments Return {A} a.
Arguments Throw {A} e.

#[global] Instance completion_ret : MRet completion := fun _ a => Return a.
#[global] Instance completion_bind : MBind completion := fun _ _ f c =>
  match c with
  | Return a => f a
  | Throw e => Throw e
  end.

(** ** [parseInt] *)

(** After ECMAScript: white space is trimmed, a sign and, in radix 16, a
    prefix "0x" are read, then the longest run of digits of the radix. *)
Module ParseInt.

(** WhiteSpace and LineTerminator code units (ECMAScript StrWhiteSpaceChar). *)
Definition is_StrWhiteSpaceChar (c : Z) : bool :=
  existsb (Z.eqb c)
    [0x9; 0xA; 0xB; 0xC; 0xD; 0x20; 0xA0; 0x1680; 0x2028; 0x2029; 0x202F;
     0x205F; 0x3000; 0xFEFF]
  || ((0x2000 <=? c) && (c <=? 0x200A)).

Fixpoint trim_start (s : jsstring) : jsstring :=
  match s with
  | c :: s' => if is_StrWhiteSpaceChar c then trim_start s' else s
  | [] => []
  end.

(** The value of a digit: 0-9, then a-z and A-Z alike for 10-35. *)
Definition digit_value (c : Z) : option Z :=
  if (0x30 <=? c) && (c <=? 0x39) then Some (c - 0x30)
  else if (0x61 <=? c) && (c <=? 0x7A) then Some (c - 0x61 + 10)
  else if (0x41 <=? c) && (c <=? 0x5A) then Some (c - 0x41 + 10)
  else None.

Definition radix_digit (R c : Z) : option Z :=
  match digit_value c with
  | Some d => if d <? R then Some d else None
  | None => None
  end.

(** The digits of the longest prefix of [s] made of radix-[R] digits. *)
Fixpoint digits_prefix (R : Z) (s : jsstring) : list Z :=
  match s with
  | c :: s' =>
      match radix_digit R c with
      | Some d => d :: digits_prefix R s'
      | None => []
      end
  | [] => []
  end.

Definition mathematical_value (R : Z) (ds : list Z) : Z :=
  foldl (fun acc d => acc * R + d) 0 ds.

(** Whether the first code unit of [s] is [c], and whether [s] begins
    with "0x" or "0X". *)
Definition first_is (s : jsstring) (c : Z) : bool :=
  match s with
  | d :: _ => d =? c
  | [] => false
  end.

Definition has_hex_prefix (s : jsstring) : bool :=
  match s with
  | c :: x :: _ => (c =? 0x30) && ((x =? 0x78) || (x =? 0x58))
  | _ => false
  end.

(** [parseInt(string, radix)] for a string argument and an integral radix.
    [None] is NaN.  The result is the exact integer; the source only parses
    strings of at most two code units, far below the precision of a Number.
    A negative zero is not told apart from zero. *)
Definition parseInt (string : jsstring) (radix : Z) : option Z :=
  let S1 := trim_start string in
  let sign := if first_is S1 0x2D then -1 else 1 in
  let S2 := if first_is S1 0x2B || first_is S1 0x2D then drop 1 S1 else S1 in
  if negb (radix =? 0) && ((radix <? 2) || (36 <? radix)) then None else
  let stripPrefix := (radix =? 0) || (radix =? 16) in
  let R := if radix =? 0 then 10 else radix in
  let prefixed := stripPrefix && has_hex_prefix S2 in
  let R := if prefixed then 16 else R in
  let S3 := if prefixed then drop 2 S2 else S2 in
  match digits_prefix R S3 with
  | [] => None
  | ds => Some (sign * mathematical_value R ds)
  end.

End ParseInt.
Export ParseInt.

(** ** [hexToBytes] *)

(** The conversion of a Number stored into a [Uint8Array] element: NaN
    becomes 0, an integer is reduced modulo 256. *)
Definition ToUint8 (n : option Z) : Z :=
  match n with
  | Some z => z mod 256
  | None => 0
  end.

(** The values of [i] in [for (let i = 0; i < len; i += 2)]. *)
Definition even_indices (len : nat) : list nat :=
  (fun k => 2 * k)%nat <$> seq 0 ((len + 1) / 2).

(** The body of the loop: [bytes[i / 2] = parseInt(hex.substr(i, 2), 16)].
    A store to an index past the end of a typed array is ignored, as is a
    list insert out of range. *)
Definition hexToBytes_store (hex : jsstring) (bytes : list Z) (i : nat) : list Z :=
  <[(i / 2)%nat := ToUint8 (parseInt (substr hex i 2) 16)]> bytes.

(** Lines 49-55: [hexToBytes(hex)].  [new Uint8Array(hex.length / 2)]
    truncates a fractional length and is filled with zeros. *)
Definition hexToBytes (hex : jsstring) : list Z :=
  let bytes := replicate (length hex / 2) 0 in
  foldl (hexToBytes_store hex) bytes (even_indices (length hex)).

(** ** UTF-8 and UTF-16 *)

(** [TextEncoder] and [Request.text] after the Encoding standard: the UTF-8
    encoder, and the UTF-8 decoder that replaces what is ill-formed by
    U+FFFD.  A string handed to the encoder is first read as scalar values. *)
Module Encoding.

(** *** Strings as scalar values (the conversion to a USVString) *)

Definition is_high_surrogate (c : Z) : bool := (0xD800 <=? c) && (c <=? 0xDBFF).
Definition is_low_surrogate (c : Z) : bool := (0xDC00 <=? c) && (c <=? 0xDFFF).

(** The scalar values of a string; an unpaired surrogate becomes U+FFFD. *)
Fixpoint scalar_values (s : jsstring) : list Z :=
  match s with
  | [] => []
  | c :: s' =>
      if is_high_surrogate c then
        match s' with
        | d :: s'' =>
            if is_low_surrogate d
            then (0x10000 + Z.shiftl (c - 0xD800) 10 + (d - 0xDC00)) :: scalar_values s''
            else 0xFFFD :: scalar_values s'
        | [] => [0xFFFD]
        end
      else if is_low_surrogate c then 0xFFFD :: scalar_values s'
      else c :: scalar_values s'
  end.

(** The code units of a scalar value. *)
Definition code_units (c : Z) : jsstring :=
  if c <? 0x10000 then [c]
  else [0xD800 + Z.shiftr (c - 0x10000) 10; 0xDC00 + Z.land (c - 0x10000) 0x3FF].

(** *** The UTF-8 encoder *)

Definition continuation_byte (codePoint count : Z) : Z :=
  Z.lor 0x80 (Z.land (Z.shiftr codePoint (6 * (count - 1))) 0x3F).

Definition encode_code_point (codePoint : Z) : list Z :=
  if codePoint <=? 0x7F then [codePoint]
  else if codePoint <=? 0x7FF then
    [Z.shiftr codePoint 6 + 0xC0; continuation_byte codePoint 1]
  else if codePoint <=? 0xFFFF then
    [Z.shiftr codePoint 12 + 0xE0; continuation_byte codePoint 2;
     continuation_byte codePoint 1]
  else
    [Z.shiftr codePoint 18 + 0xF0; continuation_byte codePoint 3;
     continuation_byte codePoint 2; continuation_byte codePoint 1].

Definition utf8_encode (scalars : list Z) : list Z :=
  scalars ≫= encode_code_point.

(** [new TextEncoder().encode(s)]. *)
Definition TextEncoder_encode (s : jsstring) : list Z :=
  utf8_encode (scalar_values s).

(** *** The UTF-8 decoder (with replacement) *)

(** A sequence begun and not finished: the code point so far, the number of
    bytes still to come (bytes needed less bytes seen), and the bounds on
    the next byte. *)
Record pending := {
  code_point : Z;
  bytes_needed : nat;
  lower_boundary : Z;
  upper_boundary : Z
}.

Inductive lead :=
  | Emit (c : Z)
  | Begin (p : pending)
  | Invalid.

(** A byte read when no sequence is pending. *)
Definition lead_byte (b : Z) : lead :=
  if b <=? 0x7F then Emit b
  else if (0xC2 <=? b) && (b <=? 0xDF) then
    Begin {| code_point := Z.land b 0x1F; bytes_needed := 1;
             lower_boundary := 0x80; upper_boundary := 0xBF |}
  else if (0xE0 <=? b) && (b <=? 0xEF) then
    Begin {| code_point := Z.land b 0xF; bytes_needed := 2;
             lower_boundary := if b =? 0xE0 then 0xA0 else 0x80;
             upper_boundary := if b =? 0xED then 0x9F else 0xBF |}
  else if (0xF0 <=? b) && (b <=? 0xF4) then
    Begin {| code_point := Z.land b 0x7; bytes_needed := 3;
             lower_boundary := if b =? 0xF0 then 0x90 else 0x80;
             upper_boundary := if b =? 0xF4 then 0x8F else 0xBF |}
  else Invalid.

(** The decoder run over the bytes.  A byte that cannot continue the
    pending sequence ends it with U+FFFD and is read again as a lead byte;
    so does the end of the input. *)
Fixpoint decode (st : option pending) (bytes : list Z) : list Z :=
  match bytes with
  | [] =>
      match st with
      | None => []
      | Some _ => [0xFFFD]
      end
  | b :: rest =>
      let as_lead :=
        match lead_byte b with
        | Emit c => c :: decode None rest
        | Begin p => decode (Some p) rest
        | Invalid => 0xFFFD :: decode None rest
        end in
      match st with
      | None => as_lead
      | Some p =>
          if (lower_boundary p <=? b) && (b <=? upper_boundary p) then
            let c := Z.lor (Z.shiftl (code_point p) 6) (Z.land b 0x3F) in
            match bytes_needed p with
            | S (S n) =>
                decode (Some {| code_point := c; bytes_needed := S n;
                                lower_boundary := 0x80; upper_boundary := 0xBF |})
                       rest
            | _ => c :: decode None rest
            end
          else 0xFFFD :: as_lead
      end
  end.

Definition has_byte_order_mark (bytes : list Z) : bool :=
  match bytes with
  | b1 :: b2 :: b3 :: _ => (b1 =? 0xEF) && (b2 =? 0xBB) && (b3 =? 0xBF)
  | _ => false
  end.

(** "UTF-8 decode": a leading byte order mark is dropped. *)
Definition utf8_decode (bytes : list Z) : list Z :=
  decode None (if has_byte_order_mark bytes then drop 3 bytes else bytes).

(** [await req.text()] on a request whose body is [bytes]. *)
Definition Body_text (bytes : list Z) : jsstring :=
  utf8_decode bytes ≫= code_units.

End Encoding.
Export Encoding.

(** ** Values *)

(** A Number: the exact value of a finite one, an infinity, or NaN. *)
Inductive number :=
  | NaN
  | Infinity (negative : bool)
  | Finite (q : Q).

Inductive value :=
  | Undefined
  | Null
  | Bool (b : bool)
  | Number (n : number)
  | String (s : jsstring)
  | Array (elements : list value)
  | Object (properties : gmap jsstring value).

Definition num (z : Z) : value := Number (Finite (inject_Z z)).

(** [v === z] for an integer literal [z]. *)
Definition strict_equals_number (v : value) (z : Z) : bool :=
  match v with
  | Number (Finite q) => Qeq_bool q (inject_Z z)
  | _ => false
  end.

(** [v === s] for a string literal [s]. *)
Definition strict_equals_string (v : value) (s : jsstring) : bool :=
  match v with
  | String s' => bool_decide (s' = s)
  | _ => false
  end.

(** [v.P], for the property names this program reads ([type], [data], [name],
    [custom_id], and [message] on a caught value, an error being an object
    that has its message as a property): none of them is defined on a
    string, on an array or on a built-in prototype, so only an own property
    of an object has a value.  Reading a property of [undefined] or [null]
    throws. *)
Definition Get (v : value) (P : jsstring) : completion value :=
  match v with
  | Undefined | Null => Throw TypeError
  | Object properties => Return (default Undefined (properties !! P))
  | _ => Return Undefined
  end.

(** [array[n]] for an array of strings and an integral Number [n]. *)
Definition element (array : list jsstring) (n : Z) : option jsstring :=
  if 0 <=? n then array !! Z.to_nat n else None.

(** A string or [undefined] as a value, and in a template literal. *)
Definition of_optional_string (s : option jsstring) : value :=
  from_option String Undefined s.

Definition ToString (s : option jsstring) : jsstring :=
  default (str "undefined") s.

(** ** Function bodies with early return *)

(** A statement completes normally, returns from the function, or throws. *)
Inductive outcome (R A : Type) :=
  | Normal (a : A)
  | Returned (r : R)
  | Thrown (e : exn).
Arguments Normal {R A} a.
Arguments Returned {R A} r.
Arguments Thrown {R A} e.

#[global] Instance outcome_ret R : MRet (outcome R) := fun _ a => Normal a.
#[global] Instance outcome_bind R : MBind (outcome R) := fun _ _ f s =>
  match s with
  | Normal a => f a
  | Returned r => Returned r
  | Thrown e => Thrown e
  end.

(** The value of an expression, or of an awaited promise, within a body. *)
Definition eval {R A} (c : completion A) : outcome R A :=
  match c with
  | Return a => Normal a
  | Throw e => Thrown e
  end.

Notation "'await' c" := (eval c) (at level 10, c at level 9, only parsing).

Definition return_ {R A} (r : R) : outcome R A := Returned r.

(** [if (c) { body }] *)
Definition when {R} (c : bool) (body : outcome R ()) : outcome R () :=
  if c then body else Normal ().

(** A call of a function whose body cannot end without [return]. *)
Definition call {R} (body : outcome R Empty_set) : completion R :=
  match body with
  | Returned r => Return r
  | Thrown e => Throw e
  | Normal a => match a with end
  end.

(** ** The host *)

(** The two [crypto.subtle] calls of the source, with their constant
    arguments applied, and [JSON.parse].
    [subtle_importKey keyData] is
    [crypto.subtle.importKey('raw', keyData, {name: 'Ed25519', namedCurve: 'Ed25519'}, false, ['verify'])]
    and [subtle_verify key signature data] is
    [crypto.subtle.verify('Ed25519', key, signature, data)]. *)
Class Platform := {
  CryptoKey : Type;
  subtle_importKey : list Z -> completion CryptoKey;
  subtle_verify : CryptoKey -> list Z -> list Z -> completion bool;
  JSON_parse : jsstring -> completion value
}.

(** A request: its headers by lower-case name ([request.headers.get(name)]
    is the lookup, [null] when the header is absent) and the bytes of its
    body. *)
Record Request := {
  headers : gmap jsstring jsstring;
  body_bytes : list Z
}.

(** The body of a response: none yet, the text given to [send], or the value
    given to [json]. *)
Inductive Body :=
  | Empty
  | Text (text : jsstring)
  | Json (v : value).

Record Response := {
  status : Z;
  body : Body
}.

(** The response object handed to a route, and its methods. *)
Definition res : Response := {| status := 200; body := Empty |}.
Definition withStatus (r : Response) (code : Z) : Response :=
  {| status := code; body := body r |}.
Definition send (r : Response) (text : jsstring) : Response :=
  {| status := status r; body := Text text |}.
Definition json (r : Response) (v : value) : Response :=
  {| status := status r; body := Json v |}.

(** ** The source *)

(** Lines 10-13. *)
Definition RESPONSES : list jsstring := [str "Yeh, nah"; str "Nah, yeh"].

(** [!v] for a string or null: null and the empty string are falsy. *)
Definition falsy (v : option jsstring) : bool :=
  match v with
  | Some (_ :: _) => false
  | _ => true
  end.

(** The string held by a variable known not to be null. *)
Definition the (v : option jsstring) : jsstring := default [] v.

(** Line 42: [new TextEncoder().encode(timestamp + body)]. *)
Definition signed_message (timestamp body : jsstring) : list Z :=
  TextEncoder_encode (timestamp ++ body).

Section Source.
Context `{host : Platform}.

(** Lines 16-46.  [env] is the environment read by [env(name)]. *)
Definition verifyDiscordSignature
    (env : gmap jsstring jsstring) (request : Request) (body : jsstring)
  : completion bool :=
  call (
    let signature := headers request !! str "x-signature-ed25519" in
    let timestamp := headers request !! str "x-signature-timestamp" in
    let publicKey := env !! str "DISCORD_PUBLIC_KEY" in
    when (falsy signature || falsy timestamp || falsy publicKey)
      (return_ false);;
    key ← await (subtle_importKey (hexToBytes (the publicKey)));
    isValid ← await (subtle_verify key (hexToBytes (the signature))
                       (signed_message (the timestamp) body));
    return_ isValid).

(** [Math.floor(Math.random() * RESPONSES.length)], [random] being the value
    of [Math.random()]: a Number in [0, 1), whose product with the length 2
    is exact. *)
Definition random_index (random : Q) : Z :=
  Qfloor (random * inject_Z (Z.of_nat (length RESPONSES))).

(** Lines 77-131: the handler of [router.post('/interactions', ...)] from
    the parsed interaction on. *)
Definition interaction_response (interaction : value) (random : Q)
  : outcome Response Empty_set :=
  type ← await (Get interaction (str "type"));
  when (strict_equals_number type 1)
    (return_ (json res (Object {[ str "type" := num 1 ]})));;
  type ← await (Get interaction (str "type"));
  when (strict_equals_number type 2)
    (data ← await (Get interaction (str "data"));
     name ← await (Get data (str "name"));
     when (strict_equals_string name (str "gork"))
       (let response := element RESPONSES (random_index random) in
        return_ (json res (Object {[
          str "type" := num 4;
          str "data" := Object {[
            str "content" := of_optional_string response;
            str "flags" := num 0 ]} ]})));;
     name ← await (Get data (str "name"));
     when (strict_equals_string name (str "gork-ephemeral"))
       (let response := element RESPONSES (random_index random) in
        return_ (json res (Object {[
          str "type" := num 4;
          str "data" := Object {[
            str "content" := of_optional_string response;
            str "flags" := num 64 ]} ]}))));;
  type ← await (Get interaction (str "type"));
  when (strict_equals_number type 3)
    (data ← await (Get interaction (str "data"));
     custom_id ← await (Get data (str "custom_id"));
     when (strict_equals_string custom_id (str "ask_gork"))
       (let response := element RESPONSES (random_index random) in
        return_ (json res (Object {[
          str "type" := num 4;
          str "data" := Object {[
            str "content" :=
              String ([0xD83C; 0xDFB1; 0x20] ++ ToString response);
            str "flags" := num 64 ]} ]}))));;
  return_ (send (withStatus res 400) (str "Unknown interaction type")).

(** Lines 66-132: the handler of [router.post('/interactions', ...)]. *)
Definition post_interactions
    (env : gmap jsstring jsstring) (req : Request) (random : Q)
  : completion Response :=
  call (
    let body := Body_text (body_bytes req) in
    isValid ← await (verifyDiscordSignature env req body);
    when (negb isValid)
      (return_ (send (withStatus res 401) (str "Unauthorized")));;
    interaction ← await (JSON_parse body);
    interaction_response interaction random).

End Source.

(** ** Notions used in the statements *)

(** The hexadecimal digits, and the value of one. *)
Definition is_hex_digit (c : Z) : bool :=
  ((0x30 <=? c) && (c <=? 0x39)) || ((0x61 <=? c) && (c <=? 0x66))
  || ((0x41 <=? c) && (c <=? 0x46)).

Definition hex_value (c : Z) : Z :=
  if c <=? 0x39 then c - 0x30
  else if c <=? 0x46 then c - 0x41 + 10
  else c - 0x61 + 10.

Definition ascii_lower (c : Z) : Z :=
  if (0x41 <=? c) && (c <=? 0x5A) then c + 0x20 else c.

Definition ascii_upper (c : Z) : Z :=
  if (0x61 <=? c) && (c <=? 0x7A) then c - 0x20 else c.

(** The Unicode scalar values: the code points that are not surrogates. *)
Definition is_scalar_value (c : Z) : bool :=
  ((0 <=? c) && (c <? 0xD800)) || ((0xE000 <=? c) && (c <? 0x110000)).

(** The bytes. *)
Definition is_byte (b : Z) : bool := (0 <=? b) && (b <? 256).

(** A pending sequence of the decoder whose every completion is a scalar
    value: [needed] bytes are still to come, the next one within the bounds. *)
Fixpoint completes_to_scalar (needed : nat) (cp lower upper : Z) : Prop :=
  match needed with
  | S (S _ as n) =>
      forall b, lower <= b <= upper ->
        completes_to_scalar n (cp * 64 + b mod 64) 0x80 0xBF
  | _ =>
      forall b, lower <= b <= upper ->
        is_scalar_value (cp * 64 + b mod 64) = true
  end.

Definition pending_ok (st : option pending) : Prop :=
  match st with
  | Some p =>
      completes_to_scalar (bytes_needed p) (code_point p)
        (lower_boundary p) (upper_boundary p)
  | None => True
  end.

(** A string that begins with a low surrogate. *)
Definition begins_low (s : jsstring) : bool :=
  match s with
  | c :: _ => is_low_surrogate c
  | [] => false
  end.

(** A header or a configured value that is absent, or empty. *)
Definition missing (v : option jsstring) : Prop := v = None \/ v = Some [].

(** The responses of the endpoint. *)
Definition unauthorized : Response :=
  {| status := 401; body := Text (str "Unauthorized") |}.

Definition unrecognized : Response :=
  {| status := 400; body := Text (str "Unknown interaction type") |}.

Definition pong : Response :=
  {| status := 200; body := Json (Object {[ str "type" := num 1 ]}) |}.

Definition message (content : jsstring) (flags : Z) : Response :=
  {| status := 200;
     body := Json (Object (
       <[ str "type" := num 4 ]>
       (<[ str "data" := Object (<[ str "content" := String content ]>
                                 {[ str "flags" := num flags ]}) ]> ∅))) |}.

(** A payload that no rule of the handler matches: its [type] is none of 1, 2
    and 3, or it is a command whose [data.name] is neither of the two
    commands, or a component whose [data.custom_id] is not the button's. *)
Inductive unmatched (interaction : value) : Prop :=
  | other_type type :
      Get interaction (str "type") = Return type ->
      strict_equals_number type 1 = false ->
      strict_equals_number type 2 = false ->
      strict_equals_number type 3 = false ->
      unmatched interaction
  | other_command type data name :
      Get interaction (str "type") = Return type ->
      strict_equals_number type 2 = true ->
      Get interaction (str "data") = Return data ->
      Get data (str "name") = Return name ->
      strict_equals_string name (str "gork") = false ->
      strict_equals_string name (str "gork-ephemeral") = false ->
      unmatched interaction
  | other_component type data custom_id :
      Get interaction (str "type") = Return type ->
      strict_equals_number type 3 = true ->
      Get interaction (str "data") = Return data ->
      Get data (str "custom_id") = Return custom_id ->
      strict_equals_string custom_id (str "ask_gork") = false ->
      unmatched interaction.

(** A value that is neither [undefined], [null] nor an object literal: a
    boolean, a number, a string or an array. *)
Definition is_primitive_or_array (v : value) : bool :=
  match v with
  | Bool _ | Number _ | String _ | Array _ => true
  | _ => false
  end.

(** ** A host for examples *)

(** Importing a raw Ed25519 key rejects, as Web Crypto does, key data that is
    not 32 bytes long (DataError).  The outcome of the signature check and
    the parser are given: [valid key signature data] and [parse]. *)
Definition example_host
    (valid : list Z -> list Z -> list Z -> bool)
    (parse : jsstring -> completion value) : Platform :=
  {| CryptoKey := list Z;
     subtle_importKey keyData :=
       if (length keyData =? 32)%nat then Return keyData
       else Throw (DOMException "DataError");
     subtle_verify key signature data := Return (valid key signature data);
     JSON_parse := parse |}.

(** A request with the two signature headers. *)
Definition signed_request (signature timestamp : jsstring) (bytes : list Z) : Request :=
  {| headers := {[ str "x-signature-ed25519" := signature;
                   str "x-signature-timestamp" := timestamp ]};
     body_bytes := bytes |}.

(** An environment holding a public key of 32 bytes. *)
Definition example_key : jsstring :=
  str "3b6a27bcceb6a42d62a3a8d02a6f0d73653215771de243a63ac048a18b59da29".

Definition example_env : gmap jsstring jsstring :=
  {[ str "DISCORD_PUBLIC_KEY" := example_key ]}.

(** A check that accepts every signature, one that rejects every signature,
    and one that accepts the signatures made over [signed]. *)
Definition accept_all (key signature data : list Z) : bool := true.
Definition reject_all (key signature data : list Z) : bool := false.
Definition accept_over (signed : list Z) (key signature data : list Z) : bool :=
  bool_decide (data = signed).

(** A parser that yields [v] whatever the text. *)
Definition parsed (v : value) (text : jsstring) : completion value := Return v.

(** Payloads, environments and requests of the examples. *)
Definition ping : value := Object {[ str "type" := num 1 ]}.

Definition command (name : jsstring) : value :=
  Object {[ str "type" := num 2;
            str "data" := Object {[ str "name" := String name ]} ]}.

Definition component (custom_id : jsstring) : value :=
  Object {[ str "type" := num 3;
            str "data" := Object {[ str "custom_id" := String custom_id ]} ]}.

Definition malformed_key_env : gmap jsstring jsstring :=
  {[ str "DISCORD_PUBLIC_KEY" := str "zz" ]}.

Definition unsigned_request : Request := {| headers := ∅; body_bytes := str "{}" |}.

Definition example_request : Request :=
  signed_request (str "00") (str "1700000000") (str "{}").

(** A request whose body holds a character outside the Basic Multilingual
    Plane. *)
Definition billiard_request : Request :=
  signed_request (str "00") (str "1700000000")
    (utf8_encode [0x7B; 0x1F3B1; 0xE9; 0x7D]).

(** ** The set-up routes *)

(** Line 7. *)
Definition DISCORD_API_BASE : jsstring := str "https://discord.com/api/v10".

(** The options given to [fetch]; [stringified] is the value handed to
    [JSON.stringify] for the body. *)
Record RequestInit := {
  method : jsstring;
  init_headers : gmap jsstring jsstring;
  stringified : value
}.

(** What [fetch] resolves to: [response.status] and the outcome of
    [await response.text()]. *)
Record Fetched := {
  fetched_status : Z;
  fetched_text : completion jsstring
}.

(** [response.ok]: the status is in the range 200-299. *)
Definition ok (response : Fetched) : bool :=
  (200 <=? fetched_status response) && (fetched_status response <=? 299).

(** The network of the host: [fetch(url, init)]; the value that
    [catch (error)] binds for what the network raised, which may be any
    value, [undefined] and [null] too; and the conversion to a string, in a
    template literal, of a number, an array or an object, which may raise. *)
Class Network := {
  fetch : jsstring -> RequestInit -> completion Fetched;
  caught : exn -> value;
  ToString_other : value -> completion jsstring
}.

(** [`${v}`]: the conversion of a value to a string in a template literal. *)
Definition ToString_value `{Network} (v : value) : completion jsstring :=
  match v with
  | Undefined => Return (str "undefined")
  | Null => Return (str "null")
  | Bool true => Return (str "true")
  | Bool false => Return (str "false")
  | String s => Return s
  | _ => ToString_other v
  end.

(** [try { block } catch (error) { handler }] *)
Definition try_catch {R A} (block : outcome R A) (handler : exn -> outcome R A)
  : outcome R A :=
  match block with
  | Thrown error => handler error
  | _ => block
  end.

(** Lines 143-154. *)
Definition commands : value :=
  Array [
    Object {[ str "name" := String (str "gork");
              str "description" := String (str "Get a response from Gork");
              str "type" := num 1 ]};
    Object {[ str "name" := String (str "gork-ephemeral");
              str "description" :=
                String (str "Get a private response from Gork (only you can see it)");
              str "type" := num 1 ]} ].

(** Lines 186-204. *)
Definition messageData : value :=
  Object {[
    str "content" := String (str "Click the button to ask Gork!");
    str "components" := Array [
      Object {[
        str "type" := num 1;
        str "components" := Array [
          Object {[
            str "type" := num 2;
            str "style" := num 1;
            str "label" := String (str "Ask Gork");
            str "custom_id" := String (str "ask_gork");
            str "emoji" := Object {[ str "name" := String [0xD83C; 0xDFB1] ]} ]} ] ]} ] ]}.

Section Setup.
Context `{network : Network}.

(** Lines 135-175: the handler of [router.post('/register-commands', ...)]. *)
Definition post_register_commands (env : gmap jsstring jsstring)
  : completion Response :=
  call (
    let applicationId := env !! str "DISCORD_APPLICATION_ID" in
    let botToken := env !! str "DISCORD_BOT_TOKEN" in
    when (falsy applicationId || falsy botToken)
      (return_ (send (withStatus res 400)
                  (str "Missing DISCORD_APPLICATION_ID or DISCORD_BOT_TOKEN")));;
    try_catch
      (response ← await (fetch
           (DISCORD_API_BASE ++ str "/applications/" ++ the applicationId
            ++ str "/commands")
           {| method := str "PUT";
              init_headers := {[
                str "Authorization" := str "Bot " ++ the botToken;
                str "Content-Type" := str "application/json" ]};
              stringified := commands |});
       if ok response then
         return_ (json res (Object {[
           str "message" := String (str "Commands registered successfully!") ]}))
       else
         error ← await (fetched_text response);
         return_ (send (withStatus res (fetched_status response))
                    (str "Failed to register commands: " ++ error)))
      (fun error =>
         message ← await (Get (caught error) (str "message"));
         text ← await (ToString_value message);
         return_ (send (withStatus res 500) (str "Error: " ++ text)))).

(** Lines 178-225: the handler of [router.post('/send-button', ...)]. *)
Definition post_send_button (env : gmap jsstring jsstring)
  : completion Response :=
  call (
    let channelId := env !! str "TEST_CHANNEL_ID" in
    let botToken := env !! str "DISCORD_BOT_TOKEN" in
    when (falsy channelId || falsy botToken)
      (return_ (send (withStatus res 400)
                  (str "Missing TEST_CHANNEL_ID or DISCORD_BOT_TOKEN")));;
    try_catch
      (response ← await (fetch
           (DISCORD_API_BASE ++ str "/channels/" ++ the channelId
            ++ str "/messages")
           {| method := str "POST";
              init_headers := {[
                str "Authorization" := str "Bot " ++ the botToken;
                str "Content-Type" := str "application/json" ]};
              stringified := messageData |});
       if ok response then
         return_ (json res (Object {[
           str "message" := String (str "Button message sent!") ]}))
       else
         error ← await (fetched_text response);
         return_ (send (withStatus res (fetched_status response))
                    (str "Failed to send message: " ++ error)))
      (fun error =>
         message ← await (Get (caught error) (str "message"));
         text ← await (ToString_value message);
         return_ (send (withStatus res 500) (str "Error: " ++ text)))).

End Setup.

(** Lines 61-63: the handler of [router.get('/', ...)]. *)
Definition get_root : completion Response :=
  Return (send res (str "GorkBot is running on Fastly Compute!")).

(** ** Further notions used in the statements *)

(** The lower-case hexadecimal digit of a value below 16, and the usual
    hexadecimal writing of a sequence of bytes. *)
Definition hex_digit (n : Z) : Z :=
  if n <? 10 then 0x30 + n else 0x61 + (n - 10).

Definition to_hex (bytes : list Z) : jsstring :=
  bytes ≫= (fun b => [hex_digit (b / 16); hex_digit (b mod 16)]).

(** A code unit with which no number can begin in radix 16: neither white
    space, nor a sign, nor a hexadecimal digit. *)
Definition begins_no_number (c : Z) : bool :=
  negb (is_StrWhiteSpaceChar c) && negb (c =? 0x2B) && negb (c =? 0x2D)
  && negb (is_hex_digit c).

(** The elements of an array. *)
Definition elements_of (v : value) : list value :=
  match v with
  | Array elements => elements
  | _ => []
  end.

(** A network for examples: every call resolves to [response], or is
    rejected when there is none; what is caught is an error whose message
    is "network error". *)
Definition example_network (response : option Fetched) : Network :=
  {| fetch url init := from_option Return (Throw TypeError) response;
     caught error := Object {[ str "message" := String (str "network error") ]};
     ToString_other v := Return (str "[object Object]") |}.

(** A network whose every call is rejected with [reason]. *)
Definition rejecting_network (reason : value) : Network :=
  {| fetch url init := Throw TypeError;
     caught error := reason;
     ToString_other v := Return (str "[object Object]") |}.

(** The environments in which a set-up route goes to the network. *)
Definition configured (env : gmap jsstring jsstring) (target : jsstring) : Prop :=
  falsy (env !! target) || falsy (env !! str "DISCORD_BOT_TOKEN") = false.

Definition setup_env : gmap jsstring jsstring :=
  {[ str "DISCORD_APPLICATION_ID" := str "1234";
     str "DISCORD_BOT_TOKEN" := str "token";
     str "TEST_CHANNEL_ID" := str "5678" ]}.

(** ** Examples *)

Example hexToBytes_lower : hexToBytes (str "00ff7a") = [0; 255; 122].
Proof. reflexivity. Qed.

Example hexToBytes_upper : hexToBytes (str "00FF7A") = [0; 255; 122].
Proof. reflexivity. Qed.

Example hexToBytes_odd : hexToBytes (str "abc") = [171].
Proof. reflexivity. Qed.

Example hexToBytes_not_hex : hexToBytes (str "zz1g-1 f0x") = [0; 1; 255; 15; 0].
Proof. reflexivity. Qed.

Example Body_text_replaces :
  Body_text [0xFF; 0x41; 0xF0; 0x9F; 0x8E; 0xB1; 0xED; 0xA0; 0x80; 0xC3]
  = [0xFFFD; 0x41; 0xD83C; 0xDFB1; 0xFFFD; 0xFFFD; 0xFFFD; 0xFFFD].
Proof. reflexivity. Qed.

Example Body_text_drops_mark : Body_text [0xEF; 0xBB; 0xBF; 0x41] = [0x41].
Proof. reflexivity. Qed.

Example TextEncoder_encode_surrogates :
  TextEncoder_encode [0xD83C; 0xDFB1; 0x20; 0xD83C; 0xE9; 0x20AC; 0xDFB1]
  = [0xF0; 0x9F; 0x8E; 0xB1; 0x20; 0xEF; 0xBF; 0xBD; 0xC3; 0xA9; 0xE2; 0x82;
     0xAC; 0xEF; 0xBF; 0xBD].
Proof. reflexivity. Qed.

Example network_error_is_answered :
  post_register_commands (network := example_network None) setup_env
  = Return {| status := 500; body := Text (str "Error: network error") |}.
Proof. reflexivity. Qed.

Example null_payload_raises :
  post_interactions (host := example_host accept_all (parsed Null))
    example_env example_request 0%Q = Throw TypeError.
Proof. reflexivity. Qed.

(** ** [hexToBytes] on hexadecimal strings *)

Section HexToBytes.

Lemma hex_digit_not_space c :
  is_hex_digit c = true -> is_StrWhiteSpaceChar c = false.
Proof. unfold is_hex_digit, is_StrWhiteSpaceChar. simpl. lia. Qed.

Lemma hex_digit_radix c :
  is_hex_digit c = true -> radix_digit 16 c = Some (hex_value c).
Proof.
  unfold is_hex_digit, radix_digit, digit_value, hex_value. intros Hc.
  repeat case_match; simplify_eq; try lia; f_equal; lia.
Qed.

Lemma hex_value_bounds c : is_hex_digit c = true -> 0 <= hex_value c < 16.
Proof. unfold is_hex_digit, hex_value. intros Hc. repeat case_match; lia. Qed.

Lemma parseInt_two_hex_digits c1 c2 :
  is_hex_digit c1 = true -> is_hex_digit c2 = true ->
  parseInt [c1; c2] 16 = Some (16 * hex_value c1 + hex_value c2).
Proof.
  intros H1 H2. unfold parseInt. cbn [trim_start].
  rewrite (hex_digit_not_space c1 H1). cbn [first_is].
  assert ((c1 =? 0x2D) = false) as -> by (unfold is_hex_digit in H1; lia).
  assert ((c1 =? 0x2B) = false) as -> by (unfold is_hex_digit in H1; lia).
  cbn [orb has_hex_prefix].
  assert ((c2 =? 0x78) = false) as -> by (unfold is_hex_digit in H2; lia).
  assert ((c2 =? 0x58) = false) as -> by (unfold is_hex_digit in H2; lia).
  change (16 =? 0) with false. change (16 <? 2) with false.
  change (36 <? 16) with false. change (16 =? 16) with true.
  cbn [negb andb orb digits_prefix].
  rewrite !andb_false_r. cbn [digits_prefix].
  rewrite !hex_digit_radix by done.
  unfold mathematical_value. cbn [foldl]. f_equal. lia.
Qed.

(** The loop: after the stores for [i = 0, 2, .., 2 (m - 1)], element [j]
    of the array holds the byte decoded at [2 j] when [j < m], and is
    unchanged otherwise. *)
Lemma loop_snoc (hex : jsstring) (bytes : list Z) (m : nat) :
  foldl (hexToBytes_store hex) bytes ((fun k => 2 * k)%nat <$> seq 0 (S m))
  = hexToBytes_store hex
      (foldl (hexToBytes_store hex) bytes ((fun k => 2 * k)%nat <$> seq 0 m))
      (2 * m).
Proof. by rewrite seq_S, fmap_app, foldl_app. Qed.

Lemma loop_length (hex : jsstring) (bytes : list Z) (m : nat) :
  length (foldl (hexToBytes_store hex) bytes ((fun k => 2 * k)%nat <$> seq 0 m))
  = length bytes.
Proof.
  induction m as [|m IH]; [done|].
  rewrite loop_snoc. unfold hexToBytes_store at 1. by rewrite length_insert.
Qed.

Lemma loop_lookup (hex : jsstring) (bytes : list Z) (m j : nat) :
  (j < length bytes)%nat ->
  foldl (hexToBytes_store hex) bytes ((fun k => 2 * k)%nat <$> seq 0 m) !! j
  = if decide (j < m)%nat
    then Some (ToUint8 (parseInt (substr hex (2 * j) 2) 16))
    else bytes !! j.
Proof.
  intros Hj. induction m as [|m IH].
  - by rewrite decide_False by lia.
  - rewrite loop_snoc. unfold hexToBytes_store at 1.
    replace ((2 * m) / 2)%nat with m
      by (symmetry; rewrite Nat.mul_comm; by apply Nat.div_mul).
    destruct (decide (j = m)) as [->|Hne].
    + rewrite list_lookup_insert_eq by (rewrite loop_length; lia).
      by rewrite decide_True by lia.
    + rewrite list_lookup_insert_ne by done. rewrite IH.
      repeat case_decide; done || lia.
Qed.

Lemma substr_pair (hex : jsstring) (i : nat) (c1 c2 : Z) :
  hex !! i = Some c1 -> hex !! S i = Some c2 -> substr hex i 2 = [c1; c2].
Proof.
  intros H1 H2. unfold substr.
  assert (drop i hex !! 0%nat = Some c1) as E1
    by (rewrite lookup_drop, Nat.add_0_r; done).
  assert (drop i hex !! 1%nat = Some c2) as E2
    by (rewrite lookup_drop, Nat.add_1_r; done).
  destruct (drop i hex) as [|a [|b l]]; simplify_eq/=; done.
Qed.

Lemma hexToBytes_length (hex : jsstring) :
  length (hexToBytes hex) = (length hex / 2)%nat.
Proof.
  unfold hexToBytes, even_indices. cbv zeta.
  rewrite loop_length. apply length_replicate.
Qed.

Lemma hexToBytes_lookup (hex : jsstring) (j : nat) :
  (j < length hex / 2)%nat ->
  hexToBytes hex !! j = Some (ToUint8 (parseInt (substr hex (2 * j) 2) 16)).
Proof.
  intros Hj. unfold hexToBytes, even_indices. cbv zeta.
  rewrite loop_lookup by (rewrite length_replicate; done).
  rewrite decide_True; [done|].
  eapply Nat.lt_le_trans; [exact Hj|]. apply Nat.Div0.div_le_mono. lia.
Qed.

Lemma hexToBytes_hex_pair (hex : jsstring) (j : nat) (c1 c2 : Z) :
  Forall (fun c => is_hex_digit c = true) hex ->
  hex !! (2 * j)%nat = Some c1 -> hex !! (2 * j + 1)%nat = Some c2 ->
  hexToBytes hex !! j = Some (16 * hex_value c1 + hex_value c2).
Proof.
  intros Hhex H1 H2.
  assert (is_hex_digit c1 = true) as D1
    by exact (proj1 (Forall_lookup _ _) Hhex _ _ H1).
  assert (is_hex_digit c2 = true) as D2
    by exact (proj1 (Forall_lookup _ _) Hhex _ _ H2).
  apply lookup_lt_Some in H2 as Hlt.
  rewrite hexToBytes_lookup.
  - rewrite (substr_pair hex (2 * j) c1 c2) by (rewrite <- ?Nat.add_1_r; done).
    rewrite parseInt_two_hex_digits by done. cbn [ToUint8]. f_equal.
    pose proof (hex_value_bounds c1 D1). pose proof (hex_value_bounds c2 D2).
    apply Z.mod_small. lia.
  - apply Nat.div_le_lower_bound; lia.
Qed.
Lemma hexToBytes_bytes (hex : jsstring) :
  Forall (fun b => is_byte b = true) (hexToBytes hex).
Proof.
  apply Forall_lookup. intros i x Hx.
  pose proof (lookup_lt_Some _ _ _ Hx) as Hi. rewrite hexToBytes_length in Hi.
  rewrite hexToBytes_lookup in Hx by done. injection Hx as <-.
  unfold ToUint8, is_byte. destruct (parseInt _ _) as [z|]; [|done].
  pose proof (Z.mod_pos_bound z 256). lia.
Qed.

Lemma hex_digit_lower c : is_hex_digit c = true -> is_hex_digit (ascii_lower c) = true.
Proof. unfold is_hex_digit, ascii_lower. intros Hc. case_match; lia. Qed.

Lemma hex_digit_upper c : is_hex_digit c = true -> is_hex_digit (ascii_upper c) = true.
Proof. unfold is_hex_digit, ascii_upper. intros Hc. case_match; lia. Qed.

Lemma hex_value_lower c : is_hex_digit c = true -> hex_value (ascii_lower c) = hex_value c.
Proof.
  unfold is_hex_digit, ascii_lower, hex_value. intros Hc. repeat case_match; lia.
Qed.

Lemma hex_value_upper c : is_hex_digit c = true -> hex_value (ascii_upper c) = hex_value c.
Proof.
  unfold is_hex_digit, ascii_upper, hex_value. intros Hc. repeat case_match; lia.
Qed.

End HexToBytes.

(** ** Bit operations as arithmetic *)

Section Bits.

Lemma land_shifted_low a k x :
  0 <= k -> 0 <= x < 2 ^ k -> Z.land (a * 2 ^ k) x = 0.
Proof.
  intros Hk Hx. apply Z.bits_inj'. intros n Hn.
  rewrite Z.land_spec, Z.bits_0.
  destruct (decide (n < k)) as [Hlt|Hge].
  - by rewrite Z.mul_pow2_bits_low.
  - rewrite andb_false_iff. right.
    destruct (decide (x = 0)) as [->|Hx0]; [apply Z.bits_0|].
    apply Z.bits_above_log2; [lia|].
    apply Z.lt_le_trans with k; [|lia]. apply Z.log2_lt_pow2; lia.
Qed.

Lemma lor_shifted_low a k x :
  0 <= k -> 0 <= x < 2 ^ k -> Z.lor (a * 2 ^ k) x = a * 2 ^ k + x.
Proof.
  intros Hk Hx. pose proof (Z.add_lor_land (a * 2 ^ k) x) as E.
  rewrite land_shifted_low in E by done. lia.
Qed.

Lemma land_low_bits a k : 0 <= k -> Z.land a (2 ^ k - 1) = a mod 2 ^ k.
Proof.
  intros Hk. rewrite <- Z.land_ones by done. f_equal.
  rewrite Z.ones_equiv. lia.
Qed.

Lemma continuation_byte_eq c k :
  1 <= k ->
  continuation_byte c k = 128 + (c / 2 ^ (6 * (k - 1))) mod 64.
Proof.
  intros Hk. unfold continuation_byte.
  rewrite Z.shiftr_div_pow2 by lia.
  rewrite (land_low_bits _ 6) by lia.
  change (2 ^ 6) with 64.
  apply (lor_shifted_low 1 7); [lia|]. change (2 ^ 7) with 128.
  pose proof (Z.mod_pos_bound (c / 2 ^ (6 * (k - 1))) 64). lia.
Qed.

Lemma continue_code_point cp b :
  Z.lor (Z.shiftl cp 6) (Z.land b 0x3F) = cp * 64 + b mod 64.
Proof.
  rewrite Z.shiftl_mul_pow2 by lia. rewrite (land_low_bits _ 6) by lia.
  change (2 ^ 6) with 64.
  apply (lor_shifted_low cp 6); [lia|]. apply Z.mod_pos_bound. lia.
Qed.

End Bits.

(** ** The decoder on encoded scalar values *)

Section Decoder.

Lemma decode_continue p b rest :
  lower_boundary p <= b <= upper_boundary p ->
  decode (Some p) (b :: rest)
  = let c := code_point p * 64 + b mod 64 in
    match bytes_needed p with
    | S (S n) =>
        decode (Some {| code_point := c; bytes_needed := S n;
                        lower_boundary := 0x80; upper_boundary := 0xBF |}) rest
    | _ => c :: decode None rest
    end.
Proof.
  intros Hb. cbn [decode].
  assert ((lower_boundary p <=? b) && (b <=? upper_boundary p) = true) as ->
    by lia.
  by rewrite continue_code_point.
Qed.

Lemma decode_lead b rest :
  decode None (b :: rest)
  = match lead_byte b with
    | Emit c => c :: decode None rest
    | Begin p => decode (Some p) rest
    | Invalid => 0xFFFD :: decode None rest
    end.
Proof. done. Qed.

Lemma lead_byte_two b :
  0xC2 <= b <= 0xDF ->
  lead_byte b = Begin {| code_point := b mod 32; bytes_needed := 1;
                         lower_boundary := 0x80; upper_boundary := 0xBF |}.
Proof.
  intros Hb. unfold lead_byte.
  assert ((b <=? 0x7F) = false) as -> by lia.
  assert ((0xC2 <=? b) && (b <=? 0xDF) = true) as -> by lia.
  by rewrite (land_low_bits _ 5) by lia.
Qed.

Lemma lead_byte_three b :
  0xE0 <= b <= 0xEF ->
  lead_byte b = Begin {| code_point := b mod 16; bytes_needed := 2;
                         lower_boundary := if b =? 0xE0 then 0xA0 else 0x80;
                         upper_boundary := if b =? 0xED then 0x9F else 0xBF |}.
Proof.
  intros Hb. unfold lead_byte.
  assert ((b <=? 0x7F) = false) as -> by lia.
  assert ((0xC2 <=? b) && (b <=? 0xDF) = false) as -> by lia.
  assert ((0xE0 <=? b) && (b <=? 0xEF) = true) as -> by lia.
  by rewrite (land_low_bits _ 4) by lia.
Qed.

Lemma lead_byte_four b :
  0xF0 <= b <= 0xF4 ->
  lead_byte b = Begin {| code_point := b mod 8; bytes_needed := 3;
                         lower_boundary := if b =? 0xF0 then 0x90 else 0x80;
                         upper_boundary := if b =? 0xF4 then 0x8F else 0xBF |}.
Proof.
  intros Hb. unfold lead_byte.
  assert ((b <=? 0x7F) = false) as -> by lia.
  assert ((0xC2 <=? b) && (b <=? 0xDF) = false) as -> by lia.
  assert ((0xE0 <=? b) && (b <=? 0xEF) = false) as -> by lia.
  assert ((0xF0 <=? b) && (b <=? 0xF4) = true) as -> by lia.
  by rewrite (land_low_bits _ 3) by lia.
Qed.

(** The bytes of an encoded code point, in arithmetic. *)
Lemma encode_code_point_eq c :
  0 <= c ->
  encode_code_point c
  = if c <=? 0x7F then [c]
    else if c <=? 0x7FF then [c / 64 + 192; 128 + c mod 64]
    else if c <=? 0xFFFF then
      [c / 4096 + 224; 128 + (c / 64) mod 64; 128 + c mod 64]
    else [c / 262144 + 240; 128 + (c / 4096) mod 64;
          128 + (c / 64) mod 64; 128 + c mod 64].
Proof.
  intros Hc. unfold encode_code_point.
  rewrite !continuation_byte_eq by lia.
  rewrite !Z.shiftr_div_pow2 by lia.
  change (2 ^ (6 * (1 - 1))) with 1. change (2 ^ (6 * (2 - 1))) with 64.
  change (2 ^ (6 * (3 - 1))) with 4096.
  change (2 ^ 6) with 64. change (2 ^ 12) with 4096.
  change (2 ^ 18) with 262144.
  by rewrite Z.div_1_r.
Qed.

Lemma decode_encoded c rest :
  is_scalar_value c = true ->
  decode None (encode_code_point c ++ rest) = c :: decode None rest.
Proof.
  intros Hc. unfold is_scalar_value in Hc.
  rewrite encode_code_point_eq by lia.
  repeat case_match; cbn [app]; rewrite decode_lead.
  - unfold lead_byte. by assert ((c <=? 0x7F) = true) as -> by lia.
  - rewrite lead_byte_two by (Z.div_mod_to_equations; lia).
    rewrite decode_continue by (cbn; Z.div_mod_to_equations; lia).
    cbn. f_equal. Z.div_mod_to_equations; lia.
  - rewrite lead_byte_three by (Z.div_mod_to_equations; lia).
    rewrite decode_continue
      by (cbn; repeat case_match; Z.div_mod_to_equations; lia).
    cbn [bytes_needed code_point]. cbv zeta.
    rewrite decode_continue by (cbn; Z.div_mod_to_equations; lia).
    cbn. f_equal. Z.div_mod_to_equations; lia.
  - rewrite lead_byte_four by (Z.div_mod_to_equations; lia).
    rewrite decode_continue
      by (cbn; repeat case_match; Z.div_mod_to_equations; lia).
    cbn [bytes_needed code_point]. cbv zeta.
    rewrite decode_continue by (cbn; Z.div_mod_to_equations; lia).
    cbn [bytes_needed code_point]. cbv zeta.
    rewrite decode_continue by (cbn; Z.div_mod_to_equations; lia).
    cbn. f_equal. Z.div_mod_to_equations; lia.
Qed.
End Decoder.

(** ** Round trips *)

Section RoundTrip.

Lemma decode_utf8_encode scalars rest :
  Forall (fun c => is_scalar_value c = true) scalars ->
  decode None (utf8_encode scalars ++ rest) = scalars ++ decode None rest.
Proof.
  unfold utf8_encode. induction 1 as [|c scalars Hc _ IH]; [done|].
  rewrite bind_cons, <- app_assoc, decode_encoded by done.
  by rewrite IH.
Qed.

Lemma no_byte_order_mark c scalars :
  is_scalar_value c = true -> c <> 0xFEFF ->
  has_byte_order_mark (utf8_encode (c :: scalars)) = false.
Proof.
  intros Hc Hne. unfold is_scalar_value in Hc. unfold utf8_encode.
  rewrite bind_cons, encode_code_point_eq by lia.
  repeat case_match; cbn [app has_byte_order_mark];
    try (destruct (_ ≫= _) as [|? [|? ?]]; cbn [app has_byte_order_mark]);
    try done; Z.div_mod_to_equations; lia.
Qed.

Lemma utf8_decode_encode scalars :
  Forall (fun c => is_scalar_value c = true) scalars ->
  head scalars <> Some 0xFEFF ->
  utf8_decode (utf8_encode scalars) = scalars.
Proof.
  intros Hs Hhead. unfold utf8_decode.
  assert (has_byte_order_mark (utf8_encode scalars) = false) as ->.
  { destruct Hs as [|c scalars Hc _]; [done|].
    apply no_byte_order_mark; [done|]. intros ->. by apply Hhead. }
  rewrite <- (app_nil_r (utf8_encode scalars)).
  rewrite decode_utf8_encode by done. cbn [decode]. apply app_nil_r.
Qed.

(** UTF-16 *)

Lemma code_units_scalar c s :
  is_scalar_value c = true ->
  scalar_values (code_units c ++ s) = c :: scalar_values s.
Proof.
  intros Hc. unfold is_scalar_value in Hc. unfold code_units.
  case_match; cbn [app scalar_values].
  - assert (is_high_surrogate c = false) as ->
      by (unfold is_high_surrogate; lia).
    by assert (is_low_surrogate c = false) as ->
      by (unfold is_low_surrogate; lia).
  - rewrite Z.shiftr_div_pow2 by lia. rewrite (land_low_bits _ 10) by lia.
    change (2 ^ 10) with 1024.
    assert (is_high_surrogate (55296 + (c - 65536) / 1024) = true) as ->
      by (unfold is_high_surrogate; Z.div_mod_to_equations; lia).
    assert (is_low_surrogate (56320 + (c - 65536) mod 1024) = true) as ->
      by (unfold is_low_surrogate; Z.div_mod_to_equations; lia).
    rewrite Z.shiftl_mul_pow2 by lia. change (2 ^ 10) with 1024.
    f_equal. Z.div_mod_to_equations; lia.
Qed.

Lemma scalar_values_code_units scalars :
  Forall (fun c => is_scalar_value c = true) scalars ->
  scalar_values (scalars ≫= code_units) = scalars.
Proof.
  induction 1 as [|c scalars Hc _ IH]; [done|].
  by rewrite bind_cons, code_units_scalar, IH.
Qed.

Lemma scalar_values_cons c s :
  scalar_values (c :: s)
  = if is_high_surrogate c then
      match s with
      | d :: s'' =>
          if is_low_surrogate d
          then (0x10000 + Z.shiftl (c - 0xD800) 10 + (d - 0xDC00))
                 :: scalar_values s''
          else 0xFFFD :: scalar_values s
      | [] => [0xFFFD]
      end
    else if is_low_surrogate c then 0xFFFD :: scalar_values s
    else c :: scalar_values s.
Proof. done. Qed.

Lemma scalar_values_app_bounded (n : nat) (a b : jsstring) :
  (length a <= n)%nat -> begins_low b = false ->
  scalar_values (a ++ b) = scalar_values a ++ scalar_values b.
Proof.
  revert a. induction n as [|n IH]; intros a Hn Hb.
  { destruct a; [done|]. cbn in Hn. lia. }
  destruct a as [|c [|d a]]; [done| |].
  - change ([c] ++ b) with (c :: b). rewrite !scalar_values_cons.
    destruct b as [|d b].
    + destruct (is_high_surrogate c), (is_low_surrogate c); reflexivity.
    + cbn [begins_low] in Hb. rewrite Hb.
      destruct (is_high_surrogate c), (is_low_surrogate c); reflexivity.
  - cbn [length] in Hn.
    change ((c :: d :: a) ++ b) with (c :: (d :: a) ++ b).
    rewrite (scalar_values_cons c ((d :: a) ++ b)).
    rewrite (scalar_values_cons c (d :: a)).
    rewrite (IH (d :: a)) by (done || cbn [length]; lia).
    change ((d :: a) ++ b) with (d :: (a ++ b)). cbv beta match.
    rewrite (IH a) by (done || lia).
    destruct (is_high_surrogate c), (is_low_surrogate c),
      (is_low_surrogate d); reflexivity.
Qed.

Lemma scalar_values_app (a b : jsstring) :
  begins_low b = false ->
  scalar_values (a ++ b) = scalar_values a ++ scalar_values b.
Proof. by apply (scalar_values_app_bounded (length a)). Qed.

Lemma code_units_begin scalars :
  Forall (fun c => is_scalar_value c = true) scalars ->
  begins_low (scalars ≫= code_units) = false.
Proof.
  destruct 1 as [|c scalars Hc _]; [done|].
  rewrite bind_cons. unfold is_scalar_value in Hc. unfold code_units.
  case_match; cbn [app begins_low]; unfold is_low_surrogate.
  - lia.
  - rewrite Z.shiftr_div_pow2 by lia. change (2 ^ 10) with 1024.
    Z.div_mod_to_equations; lia.
Qed.

Lemma signed_message_well_formed (timestamp : jsstring) (scalars : list Z) :
  Forall (fun c => is_scalar_value c = true) scalars ->
  head scalars <> Some 0xFEFF ->
  signed_message timestamp (Body_text (utf8_encode scalars))
  = TextEncoder_encode timestamp ++ utf8_encode scalars.
Proof.
  intros Hs Hhead. unfold signed_message, Body_text, TextEncoder_encode.
  rewrite utf8_decode_encode by done.
  rewrite scalar_values_app by (by apply code_units_begin).
  rewrite scalar_values_code_units by done.
  unfold utf8_encode. by rewrite bind_app.
Qed.

(** The decoder yields scalar values only. *)
Lemma lead_byte_pending b p :
  lead_byte b = Begin p -> pending_ok (Some p).
Proof.
  unfold lead_byte. intros Hl.
  destruct (b <=? 0x7F) eqn:H1; [done|].
  destruct ((0xC2 <=? b) && (b <=? 0xDF)) eqn:H2.
  { rewrite (land_low_bits _ 5) in Hl by lia. change (2 ^ 5) with 32 in Hl.
    injection Hl as <-. cbn. unfold is_scalar_value. intros b1 Hb1.
    Z.div_mod_to_equations. lia. }
  destruct ((0xE0 <=? b) && (b <=? 0xEF)) eqn:H3.
  { rewrite (land_low_bits _ 4) in Hl by lia. change (2 ^ 4) with 16 in Hl.
    injection Hl as <-. cbn. unfold is_scalar_value. intros b1 Hb1 b2 Hb2.
    destruct (Z.eqb_spec b 0xE0), (Z.eqb_spec b 0xED);
      Z.div_mod_to_equations; lia. }
  destruct ((0xF0 <=? b) && (b <=? 0xF4)) eqn:H4; [|done].
  rewrite (land_low_bits _ 3) in Hl by lia. change (2 ^ 3) with 8 in Hl.
  injection Hl as <-. cbn. unfold is_scalar_value. intros b1 Hb1 b2 Hb2 b3 Hb3.
  destruct (Z.eqb_spec b 0xF0), (Z.eqb_spec b 0xF4);
    Z.div_mod_to_equations; lia.
Qed.

Lemma decode_scalar_values bytes : forall st,
  Forall (fun b => is_byte b = true) bytes -> pending_ok st ->
  Forall (fun c => is_scalar_value c = true) (decode st bytes).
Proof.
  induction bytes as [|b rest IH]; intros st Hbytes Hst.
  { destruct st; cbn; repeat constructor. }
  apply Forall_cons in Hbytes as [Hb Hrest]. unfold is_byte in Hb.
  assert (Forall (fun c => is_scalar_value c = true)
            match lead_byte b with
            | Emit c => c :: decode None rest
            | Begin p => decode (Some p) rest
            | Invalid => 0xFFFD :: decode None rest
            end) as Hlead.
  { destruct (lead_byte b) as [c|p|] eqn:Hl.
    - constructor; [|by apply IH]. unfold lead_byte in Hl.
      repeat case_match; simplify_eq. unfold is_scalar_value. lia.
    - apply IH; [done|]. by apply (lead_byte_pending b).
    - constructor; [done|]. by apply IH. }
  destruct st as [p|]; [|done]. cbn [decode].
  destruct ((lower_boundary p <=? b) && (b <=? upper_boundary p)) eqn:Hrange;
    [|by constructor].
  rewrite continue_code_point. cbn [pending_ok] in Hst.
  destruct (bytes_needed p) as [|[|n]].
  - constructor; [apply Hst; lia|by apply IH].
  - constructor; [apply Hst; lia|by apply IH].
  - apply IH; [done|]. cbn [pending_ok bytes_needed code_point
                            lower_boundary upper_boundary].
    apply Hst. lia.
Qed.

Lemma utf8_decode_scalar_values bytes :
  Forall (fun b => is_byte b = true) bytes ->
  Forall (fun c => is_scalar_value c = true) (utf8_decode bytes).
Proof.
  intros Hbytes. unfold utf8_decode. apply decode_scalar_values; [|done].
  case_match; [by apply Forall_drop|done].
Qed.

Lemma signed_message_bytes (timestamp : jsstring) (bytes : list Z) :
  Forall (fun b => is_byte b = true) bytes ->
  signed_message timestamp (Body_text bytes)
  = TextEncoder_encode timestamp ++ utf8_encode (utf8_decode bytes).
Proof.
  intros Hbytes. apply utf8_decode_scalar_values in Hbytes.
  unfold signed_message, Body_text, TextEncoder_encode.
  rewrite scalar_values_app by (by apply code_units_begin).
  rewrite scalar_values_code_units by done.
  unfold utf8_encode. by rewrite bind_app.
Qed.

End RoundTrip.

(** ** The handler *)

Section Handler.
Context `{host : Platform}.

Lemma falsy_missing (v : option jsstring) : falsy v = true <-> missing v.
Proof.
  unfold missing. destruct v as [[|c s]|]; cbn; split; try done; auto.
  intros [E|E]; discriminate E.
Qed.

Lemma verifyDiscordSignature_guard env req body :
  falsy (headers req !! str "x-signature-ed25519")
  || falsy (headers req !! str "x-signature-timestamp")
  || falsy (env !! str "DISCORD_PUBLIC_KEY") = true ->
  verifyDiscordSignature env req body = Return false.
Proof. intros Hg. unfold verifyDiscordSignature. cbv zeta. by rewrite Hg. Qed.

Lemma verifyDiscordSignature_checked env req body :
  falsy (headers req !! str "x-signature-ed25519")
  || falsy (headers req !! str "x-signature-timestamp")
  || falsy (env !! str "DISCORD_PUBLIC_KEY") = false ->
  verifyDiscordSignature env req body
  = key ← subtle_importKey (hexToBytes (the (env !! str "DISCORD_PUBLIC_KEY")));
    subtle_verify key
      (hexToBytes (the (headers req !! str "x-signature-ed25519")))
      (signed_message (the (headers req !! str "x-signature-timestamp")) body).
Proof.
  intros Hg. unfold verifyDiscordSignature. cbv zeta. rewrite Hg.
  cbn [when mbind outcome_bind completion_bind].
  destruct (subtle_importKey _) as [key|e]; cbn; [|done].
  by destruct (subtle_verify _ _ _).
Qed.

Lemma post_interactions_rejected env req random :
  verifyDiscordSignature env req (Body_text (body_bytes req)) = Return false ->
  post_interactions env req random = Return unauthorized.
Proof. intros Hv. unfold post_interactions. cbv zeta. by rewrite Hv. Qed.

Lemma post_interactions_raised env req random e :
  verifyDiscordSignature env req (Body_text (body_bytes req)) = Throw e ->
  post_interactions env req random = Throw e.
Proof. intros Hv. unfold post_interactions. cbv zeta. by rewrite Hv. Qed.

Lemma post_interactions_verified env req random interaction :
  verifyDiscordSignature env req (Body_text (body_bytes req)) = Return true ->
  JSON_parse (Body_text (body_bytes req)) = Return interaction ->
  post_interactions env req random = call (interaction_response interaction random).
Proof.
  intros Hv Hp. unfold post_interactions. cbv zeta. by rewrite Hv; cbn; rewrite Hp.
Qed.

End Handler.

Lemma strict_equals_number_other v a b :
  strict_equals_number v a = true -> a <> b -> strict_equals_number v b = false.
Proof.
  destruct v as [| | |[| |q]| | |]; cbn; try done. intros Ha Hne.
  apply Qeq_bool_iff in Ha. apply not_true_is_false. intros Hb.
  apply Qeq_bool_iff in Hb. rewrite Ha in Hb. apply Hne.
  unfold Qeq in Hb. cbn in Hb. lia.
Qed.

Lemma random_index_range (random : Q) :
  (0 <= random)%Q -> (random < 1)%Q ->
  random_index random = 0 \/ random_index random = 1.
Proof.
  destruct random as [n d]. unfold Qle, Qlt, random_index, Qfloor. cbn.
  rewrite Pos.mul_1_r. intros H0 H1.
  pose proof (Z.div_mod (n * 2) (Z.pos d) ltac:(lia)).
  pose proof (Z.mod_pos_bound (n * 2) (Z.pos d) ltac:(lia)).
  nia.
Qed.

Lemma element_RESPONSES (random : Q) :
  (0 <= random)%Q -> (random < 1)%Q ->
  exists content,
    (content = str "Yeh, nah" \/ content = str "Nah, yeh")
    /\ element RESPONSES (random_index random) = Some content.
Proof.
  intros H0 H1.
  destruct (random_index_range random H0 H1) as [-> | ->]; eexists;
    (split; [|reflexivity]); auto.
Qed.

(** ** The claims *)

Ltac run_body :=
  cbn [eval when call return_ mbind mret outcome_bind outcome_ret
       completion_bind completion_ret negb].

Section Claims.
Context `{host : Platform}.

(** C1, as amended.  [verifyDiscordSignature] returns [false] when the
    signature header, the timestamp header or the public key is absent or
    empty.  When the three are present its outcome is that of the two
    [crypto.subtle] calls, made on the decoded key, the decoded signature
    and the message: it returns the boolean of [verify], and it raises what
    [importKey] or [verify] raises, for nothing catches it.  Decoding the
    hexadecimal never fails: every string yields half its length in bytes. *)
Theorem verifyDiscordSignature_outcome env req body :
  let signature := headers req !! str "x-signature-ed25519" in
  let timestamp := headers req !! str "x-signature-timestamp" in
  let publicKey := env !! str "DISCORD_PUBLIC_KEY" in
  let present := falsy signature || falsy timestamp || falsy publicKey = false in
  let imported := subtle_importKey (hexToBytes (the publicKey)) in
  let checked key :=
    subtle_verify key (hexToBytes (the signature))
      (signed_message (the timestamp) body) in
  (missing signature \/ missing timestamp \/ missing publicKey ->
   verifyDiscordSignature env req body = Return false)
  /\ (forall key b, present -> imported = Return key -> checked key = Return b ->
      verifyDiscordSignature env req body = Return b)
  /\ (forall e, present -> imported = Throw e ->
      verifyDiscordSignature env req body = Throw e)
  /\ (forall key e, present -> imported = Return key -> checked key = Throw e ->
      verifyDiscordSignature env req body = Throw e)
  /\ (forall hex,
        length (hexToBytes hex) = (length hex / 2)%nat
        /\ Forall (fun b => is_byte b = true) (hexToBytes hex)).
Proof.
  cbv zeta. repeat split.
  - intros Hm. apply verifyDiscordSignature_guard.
    rewrite !orb_true_iff, !falsy_missing. tauto.
  - intros key b Hg Hi Hc.
    by rewrite verifyDiscordSignature_checked, Hi by done.
  - intros e Hg Hi. by rewrite verifyDiscordSignature_checked, Hi by done.
  - intros key e Hg Hi Hc.
    by rewrite verifyDiscordSignature_checked, Hi by done.
  - apply hexToBytes_length.
  - apply hexToBytes_bytes.
Qed.

(** C2, as amended.  When the three credentials are present, the endpoint
    checks the signature over the UTF-8 encoding of the timestamp header
    followed by the body decoded as UTF-8 and encoded again, and only then
    parses the body: the message is made from the timestamp and the bytes
    of the body, never from the parsed payload.  When the body is
    well-formed UTF-8 that does not begin with a byte order mark, the
    message is exactly the UTF-8 encoding of the timestamp header followed
    by the bytes of the body as received. *)
Theorem signature_covers_timestamp_and_body
    env req random (signature timestamp publicKey : jsstring) :
  headers req !! str "x-signature-ed25519" = Some signature -> signature <> [] ->
  headers req !! str "x-signature-timestamp" = Some timestamp -> timestamp <> [] ->
  env !! str "DISCORD_PUBLIC_KEY" = Some publicKey -> publicKey <> [] ->
  Forall (fun b => is_byte b = true) (body_bytes req) ->
  post_interactions env req random
  = (key ← subtle_importKey (hexToBytes publicKey);
     isValid ← subtle_verify key (hexToBytes signature)
                 (TextEncoder_encode timestamp
                  ++ utf8_encode (utf8_decode (body_bytes req)));
     if isValid : bool then
       interaction ← JSON_parse (Body_text (body_bytes req));
       call (interaction_response interaction random)
     else Return unauthorized)
  /\ (forall scalars,
        Forall (fun c => is_scalar_value c = true) scalars ->
        head scalars <> Some 0xFEFF ->
        body_bytes req = utf8_encode scalars ->
        post_interactions env req random
        = (key ← subtle_importKey (hexToBytes publicKey);
           isValid ← subtle_verify key (hexToBytes signature)
                       (TextEncoder_encode timestamp ++ body_bytes req);
           if isValid : bool then
             interaction ← JSON_parse (Body_text (body_bytes req));
             call (interaction_response interaction random)
           else Return unauthorized)).
Proof.
  intros Hs Hs0 Ht Ht0 Hk Hk0 Hbytes.
  assert (falsy (headers req !! str "x-signature-ed25519")
          || falsy (headers req !! str "x-signature-timestamp")
          || falsy (env !! str "DISCORD_PUBLIC_KEY") = false) as Hg.
  { rewrite Hs, Ht, Hk. destruct signature, timestamp, publicKey; done. }
  assert (post_interactions env req random
          = (key ← subtle_importKey (hexToBytes publicKey);
             isValid ← subtle_verify key (hexToBytes signature)
                         (signed_message timestamp
                            (Body_text (body_bytes req)));
             if isValid : bool then
               interaction ← JSON_parse (Body_text (body_bytes req));
               call (interaction_response interaction random)
             else Return unauthorized)) as Hpost.
  { unfold post_interactions. cbv zeta.
    rewrite (verifyDiscordSignature_checked _ _ _ Hg), Hs, Ht, Hk.
    cbn [the default from_option id].
    destruct (subtle_importKey (hexToBytes publicKey)) as [key|e]; [|done].
    cbn [mbind completion_bind].
    destruct (subtle_verify key _ _) as [[|]|e]; [|done|done].
    run_body.
    by destruct (JSON_parse (Body_text (body_bytes req))). }
  split.
  - by rewrite Hpost, signed_message_bytes.
  - intros scalars Hwf Hhead Hbody. rewrite Hpost, Hbody.
    by rewrite signed_message_well_formed.
Qed.

(** C3, as amended.  A verified payload that no rule matches and on which
    the reads have a value is answered with status 400 and the plain text
    "Unknown interaction type".  A verified payload that is [null], or one
    of type 2 or 3 whose [data] is absent or null, is not answered: the
    handler raises a TypeError. *)
Theorem unmatched_interaction_is_unrecognized env req random interaction :
  verifyDiscordSignature env req (Body_text (body_bytes req)) = Return true ->
  JSON_parse (Body_text (body_bytes req)) = Return interaction ->
  (unmatched interaction ->
   post_interactions env req random = Return unrecognized)
  /\ (interaction = Null ->
      post_interactions env req random = Throw TypeError)
  /\ (forall type data,
        Get interaction (str "type") = Return type ->
        strict_equals_number type 2 = true
        \/ strict_equals_number type 3 = true ->
        Get interaction (str "data") = Return data ->
        data = Undefined \/ data = Null ->
        post_interactions env req random = Throw TypeError).
Proof.
  intros Hv Hp. rewrite (post_interactions_verified _ _ _ _ Hv Hp).
  unfold interaction_response. split; [|split].
  - intros Hu.
    destruct Hu as [type Ht H1 H2 H3
                   |type data name Ht H2 Hd Hn Hg He
                   |type data custom_id Ht H3 Hd Hc Ha].
    + rewrite Ht. run_body. rewrite H1, H2, H3. done.
    + rewrite Ht. run_body.
      rewrite (strict_equals_number_other _ 2 1 H2) by done.
      rewrite (strict_equals_number_other _ 2 3 H2) by done.
      rewrite H2. run_body. rewrite Hd. run_body. rewrite Hn. run_body.
      rewrite Hg, He. done.
    + rewrite Ht. run_body.
      rewrite (strict_equals_number_other _ 3 1 H3) by done.
      rewrite (strict_equals_number_other _ 3 2 H3) by done.
      rewrite H3. run_body. rewrite Hd. run_body. rewrite Hc. run_body.
      rewrite Ha. done.
  - by intros ->.
  - intros type data Ht [H2|H3] Hd Hdata; rewrite Ht; run_body.
    + rewrite (strict_equals_number_other _ 2 1 H2) by done. rewrite H2.
      run_body. rewrite Hd. by destruct Hdata as [-> | ->].
    + rewrite (strict_equals_number_other _ 3 1 H3) by done.
      rewrite (strict_equals_number_other _ 3 2 H3) by done. rewrite H3.
      run_body. rewrite Hd. by destruct Hdata as [-> | ->].
Qed.

(** C4.  When the signature header, the timestamp header or the configured
    public key is missing, [verifyDiscordSignature] returns [false] and the
    endpoint answers with status 401. *)
Theorem missing_credentials_are_unauthorized env req random :
  missing (headers req !! str "x-signature-ed25519")
  \/ missing (headers req !! str "x-signature-timestamp")
  \/ missing (env !! str "DISCORD_PUBLIC_KEY") ->
  (forall body, verifyDiscordSignature env req body = Return false)
  /\ post_interactions env req random = Return unauthorized
  /\ status unauthorized = 401.
Proof.
  intros Hm.
  assert (forall body, verifyDiscordSignature env req body = Return false) as Hv.
  { intros body. apply verifyDiscordSignature_guard.
    rewrite !orb_true_iff, !falsy_missing. tauto. }
  split; [done|]. split; [|done]. by apply post_interactions_rejected.
Qed.

(** C5, as amended.  Two requests for which [verifyDiscordSignature]
    returns [false] get the same response, whatever made it so: status 401
    with the body "Unauthorized".  A request on which [importKey] or
    [verify] raises gets no 401: the handler raises the same exception. *)
Theorem rejected_requests_get_the_same_response
    env1 req1 random1 env2 req2 random2 :
  let signature := headers req1 !! str "x-signature-ed25519" in
  let timestamp := headers req1 !! str "x-signature-timestamp" in
  let publicKey := env1 !! str "DISCORD_PUBLIC_KEY" in
  let present := falsy signature || falsy timestamp || falsy publicKey = false in
  let imported := subtle_importKey (hexToBytes (the publicKey)) in
  let checked key :=
    subtle_verify key (hexToBytes (the signature))
      (signed_message (the timestamp) (Body_text (body_bytes req1))) in
  (verifyDiscordSignature env1 req1 (Body_text (body_bytes req1)) = Return false ->
   verifyDiscordSignature env2 req2 (Body_text (body_bytes req2)) = Return false ->
   post_interactions env1 req1 random1 = post_interactions env2 req2 random2
   /\ post_interactions env1 req1 random1 = Return unauthorized)
  /\ (forall e, present -> imported = Throw e ->
      post_interactions env1 req1 random1 = Throw e)
  /\ (forall key e, present -> imported = Return key -> checked key = Throw e ->
      post_interactions env1 req1 random1 = Throw e).
Proof.
  cbv zeta. split; [|split].
  - intros H1 H2. by rewrite !post_interactions_rejected.
  - intros e Hg Hi. apply post_interactions_raised.
    by rewrite verifyDiscordSignature_checked, Hi by done.
  - intros key e Hg Hi Hc. apply post_interactions_raised.
    by rewrite verifyDiscordSignature_checked, Hi by done.
Qed.

(** C6.  A verified command named "gork" is answered with a message of type
    4 whose content is one of the two strings of the pool and whose flags
    are 0; the command "gork-ephemeral" likewise with flags 64. *)
Theorem command_is_answered_from_the_pool
    env req random interaction type data (name : jsstring) (flags : Z) :
  verifyDiscordSignature env req (Body_text (body_bytes req)) = Return true ->
  JSON_parse (Body_text (body_bytes req)) = Return interaction ->
  Get interaction (str "type") = Return type ->
  strict_equals_number type 2 = true ->
  Get interaction (str "data") = Return data ->
  Get data (str "name") = Return (String name) ->
  (name = str "gork" /\ flags = 0)
  \/ (name = str "gork-ephemeral" /\ flags = 64) ->
  (0 <= random)%Q -> (random < 1)%Q ->
  exists content,
    (content = str "Yeh, nah" \/ content = str "Nah, yeh")
    /\ post_interactions env req random = Return (message content flags).
Proof.
  intros Hv Hp Ht H2 Hd Hn Hname H0 H1.
  destruct (element_RESPONSES random H0 H1) as (content & Hin & Hc).
  exists content. split; [done|].
  rewrite (post_interactions_verified _ _ _ _ Hv Hp).
  unfold interaction_response. rewrite Ht. run_body.
  rewrite (strict_equals_number_other _ 2 1 H2) by done. rewrite H2.
  run_body. rewrite Hd. run_body. rewrite Hn. run_body. rewrite Hc.
  destruct Hname as [[-> ->]|[-> ->]]; reflexivity.
Qed.

(** C7.  A verified component whose custom id is "ask_gork" is answered
    with a message of type 4 and flags 64 whose content is the marker, the
    billiard ball U+1F3B1 and a space, followed by a string of the pool. *)
Theorem button_is_answered_with_the_marker
    env req random interaction type data :
  verifyDiscordSignature env req (Body_text (body_bytes req)) = Return true ->
  JSON_parse (Body_text (body_bytes req)) = Return interaction ->
  Get interaction (str "type") = Return type ->
  strict_equals_number type 3 = true ->
  Get interaction (str "data") = Return data ->
  Get data (str "custom_id") = Return (String (str "ask_gork")) ->
  (0 <= random)%Q -> (random < 1)%Q ->
  exists content,
    (content = str "Yeh, nah" \/ content = str "Nah, yeh")
    /\ post_interactions env req random
       = Return (message ([0xD83C; 0xDFB1; 0x20] ++ content) 64).
Proof.
  intros Hv Hp Ht H3 Hd Hc H0 H1.
  destruct (element_RESPONSES random H0 H1) as (content & Hin & He).
  exists content. split; [done|].
  rewrite (post_interactions_verified _ _ _ _ Hv Hp).
  unfold interaction_response. rewrite Ht. run_body.
  rewrite (strict_equals_number_other _ 3 1 H3) by done.
  rewrite (strict_equals_number_other _ 3 2 H3) by done. rewrite H3.
  run_body. rewrite Hd. run_body. rewrite Hc. run_body. rewrite He.
  reflexivity.
Qed.

(** C9.  A verified payload of type 1 is answered with exactly the object
    whose only property is [type], 1: it has no [data]. *)
Theorem ping_is_acknowledged env req random interaction type :
  verifyDiscordSignature env req (Body_text (body_bytes req)) = Return true ->
  JSON_parse (Body_text (body_bytes req)) = Return interaction ->
  Get interaction (str "type") = Return type ->
  strict_equals_number type 1 = true ->
  exists properties : gmap jsstring value,
    post_interactions env req random
    = Return {| status := 200; body := Json (Object properties) |}
    /\ properties !! str "type" = Some (num 1)
    /\ properties !! str "data" = None
    /\ forall P, P <> str "type" -> properties !! P = None.
Proof.
  intros Hv Hp Ht H1. exists {[ str "type" := num 1 ]}.
  split; [|split; [|split]].
  - rewrite (post_interactions_verified _ _ _ _ Hv Hp).
    unfold interaction_response. rewrite Ht. run_body. by rewrite H1.
  - reflexivity.
  - reflexivity.
  - intros P HP. by apply lookup_singleton_ne.
Qed.

(** C10, as amended.  For a verified payload of type 2 or 3 whose [data] is
    absent or null, the handler raises a TypeError when it reads [data.name]
    or [data.custom_id].  When [data] is a boolean, a number, a string or an
    array the read yields [undefined] and the answer is the 400 of an
    unrecognized interaction. *)
Theorem data_that_is_not_an_object env req random interaction type data :
  verifyDiscordSignature env req (Body_text (body_bytes req)) = Return true ->
  JSON_parse (Body_text (body_bytes req)) = Return interaction ->
  Get interaction (str "type") = Return type ->
  strict_equals_number type 2 = true \/ strict_equals_number type 3 = true ->
  Get interaction (str "data") = Return data ->
  (data = Undefined \/ data = Null ->
   post_interactions env req random = Throw TypeError)
  /\ (is_primitive_or_array data = true ->
      post_interactions env req random = Return unrecognized).
Proof.
  intros Hv Hp Ht Htype Hd.
  rewrite (post_interactions_verified _ _ _ _ Hv Hp).
  unfold interaction_response. rewrite Ht. run_body.
  destruct Htype as [H2|H3].
  - rewrite (strict_equals_number_other _ 2 1 H2) by done.
    rewrite (strict_equals_number_other _ 2 3 H2) by done. rewrite H2.
    run_body. rewrite Hd. run_body. split.
    + by intros [-> | ->].
    + by destruct data.
  - rewrite (strict_equals_number_other _ 3 1 H3) by done.
    rewrite (strict_equals_number_other _ 3 2 H3) by done. rewrite H3.
    run_body. rewrite Hd. run_body. split.
    + by intros [-> | ->].
    + by destruct data.
Qed.

End Claims.

(** C8.  On a string of [2 n] hexadecimal digits [hexToBytes] returns [n]
    bytes; byte [i] is the value of the digits at [2 i] and [2 i + 1], the
    first one weighing 16; the case of a digit does not matter. *)
Theorem hexToBytes_decodes_pairs (hex : jsstring) (n : nat) :
  Forall (fun c => is_hex_digit c = true) hex ->
  length hex = (2 * n)%nat ->
  length (hexToBytes hex) = n
  /\ (forall i, (i < n)%nat ->
      exists c1 c2,
        hex !! (2 * i)%nat = Some c1 /\ hex !! (2 * i + 1)%nat = Some c2
        /\ hexToBytes hex !! i = Some (16 * hex_value c1 + hex_value c2))
  /\ hexToBytes (ascii_lower <$> hex) = hexToBytes hex
  /\ hexToBytes (ascii_upper <$> hex) = hexToBytes hex.
Proof.
  intros Hhex Hlen.
  assert (length (hexToBytes hex) = n) as Hn.
  { rewrite hexToBytes_length, Hlen, Nat.mul_comm. by apply Nat.div_mul. }
  assert (forall i, (i < n)%nat ->
            exists c1 c2,
              hex !! (2 * i)%nat = Some c1 /\ hex !! (2 * i + 1)%nat = Some c2
              /\ hexToBytes hex !! i = Some (16 * hex_value c1 + hex_value c2))
    as Hpairs.
  { intros i Hi.
    destruct (lookup_lt_is_Some_2 hex (2 * i)) as [c1 H1]; [lia|].
    destruct (lookup_lt_is_Some_2 hex (2 * i + 1)) as [c2 H2]; [lia|].
    exists c1, c2. by rewrite (hexToBytes_hex_pair hex i c1 c2). }
  split; [done|]. split; [done|].
  split; apply list_eq_same_length with n;
    rewrite ?hexToBytes_length, ?length_fmap, ?Hlen, ?(Nat.mul_comm 2 n),
      ?Nat.div_mul; try done.
  - intros i x y Hi Hx Hy. destruct (Hpairs i Hi) as (c1 & c2 & H1 & H2 & Hb).
    rewrite Hb in Hy.
    rewrite (hexToBytes_hex_pair _ i (ascii_lower c1) (ascii_lower c2)) in Hx.
    + rewrite !hex_value_lower in Hx
        by (eapply (proj1 (Forall_lookup _ _) Hhex); done). congruence.
    + apply Forall_fmap. eapply Forall_impl; [done|]. apply hex_digit_lower.
    + by rewrite list_lookup_fmap, H1.
    + by rewrite list_lookup_fmap, H2.
  - intros i x y Hi Hx Hy. destruct (Hpairs i Hi) as (c1 & c2 & H1 & H2 & Hb).
    rewrite Hb in Hy.
    rewrite (hexToBytes_hex_pair _ i (ascii_upper c1) (ascii_upper c2)) in Hx.
    + rewrite !hex_value_upper in Hx
        by (eapply (proj1 (Forall_lookup _ _) Hhex); done). congruence.
    + apply Forall_fmap. eapply Forall_impl; [done|]. apply hex_digit_upper.
    + by rewrite list_lookup_fmap, H1.
    + by rewrite list_lookup_fmap, H2.
Qed.

(** ** The claims at concrete requests *)

(** C1 at a request without headers. *)
Lemma verifyDiscordSignature_outcome_witness :
  verifyDiscordSignature (host := example_host accept_all (parsed ping))
    example_env unsigned_request (str "{}") = Return false.
Proof.
  apply (proj1 (verifyDiscordSignature_outcome
                  (host := example_host accept_all (parsed ping))
                  example_env unsigned_request (str "{}"))).
  left. left. reflexivity.
Defined.

(** C1 as stated fails: with a public key that does not decode to 32 bytes
    the import of the key raises, and so does [verifyDiscordSignature]. *)
Lemma verifyDiscordSignature_raises :
  verifyDiscordSignature (host := example_host accept_all (parsed ping))
    malformed_key_env example_request (Body_text (body_bytes example_request))
  = Throw (DOMException "DataError").
Proof. reflexivity. Qed.

(** C2 at a body holding a character outside the Basic Multilingual Plane. *)
Lemma signature_covers_timestamp_and_body_witness :
  post_interactions (host := example_host accept_all (parsed ping))
    example_env billiard_request 0%Q
  = (key ← subtle_importKey (Platform := example_host accept_all (parsed ping))
             (hexToBytes example_key);
     isValid ← subtle_verify key (hexToBytes (str "00"))
                 (TextEncoder_encode (str "1700000000")
                  ++ utf8_encode (utf8_decode (body_bytes billiard_request)));
     if isValid : bool then
       interaction ← JSON_parse
                       (Platform := example_host accept_all (parsed ping))
                       (Body_text (body_bytes billiard_request));
       call (interaction_response interaction 0%Q)
     else Return unauthorized)
  /\ (forall scalars,
        Forall (fun c => is_scalar_value c = true) scalars ->
        head scalars <> Some 0xFEFF ->
        body_bytes billiard_request = utf8_encode scalars ->
        post_interactions (host := example_host accept_all (parsed ping))
          example_env billiard_request 0%Q
        = (key ← subtle_importKey
                   (Platform := example_host accept_all (parsed ping))
                   (hexToBytes example_key);
           isValid ← subtle_verify key (hexToBytes (str "00"))
                       (TextEncoder_encode (str "1700000000")
                        ++ body_bytes billiard_request);
           if isValid : bool then
             interaction ← JSON_parse
                       (Platform := example_host accept_all (parsed ping))
                       (Body_text (body_bytes billiard_request));
             call (interaction_response interaction 0%Q)
           else Return unauthorized)).
Proof.
  apply (signature_covers_timestamp_and_body
           (host := example_host accept_all (parsed ping))
           example_env billiard_request 0%Q
           (str "00") (str "1700000000") example_key).
  - reflexivity.
  - discriminate.
  - reflexivity.
  - discriminate.
  - reflexivity.
  - discriminate.
  - vm_compute. repeat constructor.
Defined.

(** C2 as stated fails: a body that is not well-formed UTF-8 is decoded
    with replacement characters and encoded again, so the message is not
    the timestamp followed by the body as received.  For the body FF the
    endpoint refuses a signature made over the timestamp and that byte,
    and accepts one made over the timestamp and EF BF BD. *)
Lemma message_of_an_ill_formed_body :
  signed_message (str "1") (Body_text [0xFF])
  <> TextEncoder_encode (str "1") ++ [0xFF]
  /\ post_interactions
       (host := example_host
                  (accept_over (TextEncoder_encode (str "1") ++ [0xFF]))
                  (parsed ping))
       example_env (signed_request (str "00") (str "1") [0xFF]) 0%Q
     = Return unauthorized
  /\ post_interactions
       (host := example_host
                  (accept_over
                     (TextEncoder_encode (str "1") ++ [0xEF; 0xBF; 0xBD]))
                  (parsed ping))
       example_env (signed_request (str "00") (str "1") [0xFF]) 0%Q
     = Return pong.
Proof. split; [discriminate|]. split; reflexivity. Qed.

(** C3 at a payload of type 99. *)
Lemma unmatched_interaction_is_unrecognized_witness :
  (unmatched (Object {[ str "type" := num 99 ]}) ->
   post_interactions
     (host := example_host accept_all (parsed (Object {[ str "type" := num 99 ]})))
     example_env example_request 0%Q
   = Return unrecognized)
  /\ (Object {[ str "type" := num 99 ]} = Null ->
      post_interactions
        (host := example_host accept_all
                   (parsed (Object {[ str "type" := num 99 ]})))
        example_env example_request 0%Q
      = Throw TypeError)
  /\ (forall type data,
        Get (Object {[ str "type" := num 99 ]}) (str "type") = Return type ->
        strict_equals_number type 2 = true
        \/ strict_equals_number type 3 = true ->
        Get (Object {[ str "type" := num 99 ]}) (str "data") = Return data ->
        data = Undefined \/ data = Null ->
        post_interactions
          (host := example_host accept_all
                     (parsed (Object {[ str "type" := num 99 ]})))
          example_env example_request 0%Q
        = Throw TypeError).
Proof.
  apply (unmatched_interaction_is_unrecognized
           (host := example_host accept_all
                      (parsed (Object {[ str "type" := num 99 ]})))
           example_env example_request 0%Q (Object {[ str "type" := num 99 ]})).
  - reflexivity.
  - reflexivity.
Defined.

(** C3 as stated fails: a verified command without [data] is a payload
    that no rule matches, and it is not answered with the 400: the handler
    raises when it reads [data.name]. *)
Lemma command_without_data_is_not_answered :
  post_interactions
    (host := example_host accept_all (parsed (Object {[ str "type" := num 2 ]})))
    example_env example_request 0%Q
  = Throw TypeError.
Proof. reflexivity. Qed.

(** C4 at a request without headers. *)
Lemma missing_credentials_are_unauthorized_witness :
  (forall body,
     verifyDiscordSignature (host := example_host accept_all (parsed ping))
       example_env unsigned_request body = Return false)
  /\ post_interactions (host := example_host accept_all (parsed ping))
       example_env unsigned_request 0%Q = Return unauthorized
  /\ status unauthorized = 401.
Proof.
  apply (missing_credentials_are_unauthorized
           (host := example_host accept_all (parsed ping))
           example_env unsigned_request 0%Q).
  left. left. reflexivity.
Defined.

(** C5 at a request without headers and a request whose signature is
    refused. *)
Lemma rejected_requests_get_the_same_response_witness :
  post_interactions (host := example_host reject_all (parsed ping))
    example_env unsigned_request 0%Q
  = post_interactions (host := example_host reject_all (parsed ping))
      example_env example_request (1 # 2)%Q
  /\ post_interactions (host := example_host reject_all (parsed ping))
       example_env unsigned_request 0%Q = Return unauthorized.
Proof.
  apply (proj1 (rejected_requests_get_the_same_response
                  (host := example_host reject_all (parsed ping))
                  example_env unsigned_request 0%Q
                  example_env example_request (1 # 2)%Q)).
  - reflexivity.
  - reflexivity.
Defined.

(** C5 as stated fails: under a public key that does not decode to 32
    bytes, a request without headers and a request with headers both fail
    authentication; the first gets the 401, the second an exception. *)
Lemma failed_authentications_that_differ :
  post_interactions (host := example_host reject_all (parsed ping))
    malformed_key_env unsigned_request 0%Q = Return unauthorized
  /\ post_interactions (host := example_host reject_all (parsed ping))
       malformed_key_env example_request 0%Q
     = Throw (DOMException "DataError")
  /\ post_interactions (host := example_host reject_all (parsed ping))
       malformed_key_env unsigned_request 0%Q
     <> post_interactions (host := example_host reject_all (parsed ping))
          malformed_key_env example_request 0%Q.
Proof. split; [reflexivity|]. split; [reflexivity|discriminate]. Qed.

(** C6 at the command "gork-ephemeral" and the draw 2/3. *)
Lemma command_is_answered_from_the_pool_witness :
  exists content,
    (content = str "Yeh, nah" \/ content = str "Nah, yeh")
    /\ post_interactions
         (host := example_host accept_all (parsed (command (str "gork-ephemeral"))))
         example_env example_request (2 # 3)%Q
       = Return (message content 64).
Proof.
  apply (command_is_answered_from_the_pool
           (host := example_host accept_all
                      (parsed (command (str "gork-ephemeral"))))
           example_env example_request (2 # 3)%Q
           (command (str "gork-ephemeral")) (num 2)
           (Object {[ str "name" := String (str "gork-ephemeral") ]})
           (str "gork-ephemeral") 64).
  - reflexivity.
  - reflexivity.
  - reflexivity.
  - reflexivity.
  - reflexivity.
  - reflexivity.
  - right. split; reflexivity.
  - discriminate.
  - reflexivity.
Defined.

(** C7 at the button and the draw 1/4. *)
Lemma button_is_answered_with_the_marker_witness :
  exists content,
    (content = str "Yeh, nah" \/ content = str "Nah, yeh")
    /\ post_interactions
         (host := example_host accept_all (parsed (component (str "ask_gork"))))
         example_env example_request (1 # 4)%Q
       = Return (message ([0xD83C; 0xDFB1; 0x20] ++ content) 64).
Proof.
  apply (button_is_answered_with_the_marker
           (host := example_host accept_all
                      (parsed (component (str "ask_gork"))))
           example_env example_request (1 # 4)%Q
           (component (str "ask_gork")) (num 3)
           (Object {[ str "custom_id" := String (str "ask_gork") ]})).
  - reflexivity.
  - reflexivity.
  - reflexivity.
  - reflexivity.
  - reflexivity.
  - reflexivity.
  - discriminate.
  - reflexivity.
Defined.

(** C8 at a string of six digits in both cases. *)
Lemma hexToBytes_decodes_pairs_witness :
  length (hexToBytes (str "00fF7a")) = 3%nat
  /\ (forall i, (i < 3)%nat ->
      exists c1 c2,
        str "00fF7a" !! (2 * i)%nat = Some c1
        /\ str "00fF7a" !! (2 * i + 1)%nat = Some c2
        /\ hexToBytes (str "00fF7a") !! i
           = Some (16 * hex_value c1 + hex_value c2))
  /\ hexToBytes (ascii_lower <$> str "00fF7a") = hexToBytes (str "00fF7a")
  /\ hexToBytes (ascii_upper <$> str "00fF7a") = hexToBytes (str "00fF7a").
Proof.
  apply (hexToBytes_decodes_pairs (str "00fF7a") 3).
  - repeat constructor.
  - reflexivity.
Defined.

(** C9 at the ping. *)
Lemma ping_is_acknowledged_witness :
  exists properties : gmap jsstring value,
    post_interactions (host := example_host accept_all (parsed ping))
      example_env example_request 0%Q
    = Return {| status := 200; body := Json (Object properties) |}
    /\ properties !! str "type" = Some (num 1)
    /\ properties !! str "data" = None
    /\ forall P, P <> str "type" -> properties !! P = None.
Proof.
  apply (ping_is_acknowledged
           (host := example_host accept_all (parsed ping))
           example_env example_request 0%Q ping (num 1)).
  - reflexivity.
  - reflexivity.
  - reflexivity.
  - reflexivity.
Defined.

(** C10 at a command without [data]. *)
Lemma data_that_is_not_an_object_witness :
  (Undefined = Undefined \/ Undefined = Null ->
   post_interactions
     (host := example_host accept_all (parsed (Object {[ str "type" := num 2 ]})))
     example_env example_request 0%Q
   = Throw TypeError)
  /\ (is_primitive_or_array Undefined = true ->
      post_interactions
        (host := example_host accept_all
                   (parsed (Object {[ str "type" := num 2 ]})))
        example_env example_request 0%Q
      = Return unrecognized).
Proof.
  apply (data_that_is_not_an_object
           (host := example_host accept_all
                      (parsed (Object {[ str "type" := num 2 ]})))
           example_env example_request 0%Q
           (Object {[ str "type" := num 2 ]}) (num 2) Undefined).
  - reflexivity.
  - reflexivity.
  - reflexivity.
  - left. reflexivity.
  - reflexivity.
Defined.

(** C10 as stated fails: a command whose [data] is the number 5 does not
    make the handler raise; reading [name] on a number yields [undefined]
    and the answer is the 400. *)
Lemma data_that_is_a_number_is_unrecognized :
  post_interactions
    (host := example_host accept_all
               (parsed (Object {[ str "type" := num 2; str "data" := num 5 ]})))
    example_env example_request 0%Q
  = Return unrecognized.
Proof. reflexivity. Qed.

(** ** More on [hexToBytes] *)

Lemma substr_app_l (a b : jsstring) (i n : nat) :
  (i + n <= length a)%nat -> substr (a ++ b) i n = substr a i n.
Proof.
  intros Hi. unfold substr. rewrite drop_app_le by lia.
  apply take_app_le. rewrite length_drop. lia.
Qed.

Lemma substr_app_r (a b : jsstring) (i n : nat) :
  (length a <= i)%nat -> substr (a ++ b) i n = substr b (i - length a) n.
Proof. intros Hi. unfold substr. by rewrite drop_app_ge. Qed.

Lemma hexToBytes_concat (a b : jsstring) (n : nat) :
  length a = (2 * n)%nat -> hexToBytes (a ++ b) = hexToBytes a ++ hexToBytes b.
Proof.
  intros Ha.
  assert (length (a ++ b) / 2 = n + length b / 2)%nat as Hlen.
  { rewrite length_app, Ha, (Nat.mul_comm 2 n). apply Nat.div_add_l. done. }
  assert (length (hexToBytes a) = n) as Hna.
  { rewrite hexToBytes_length, Ha, Nat.mul_comm. by apply Nat.div_mul. }
  apply list_eq. intros j.
  destruct (decide (j < n)%nat) as [Hj|Hj].
  - rewrite lookup_app_l by lia.
    rewrite !hexToBytes_lookup by (rewrite ?Hlen, <- ?Hna, ?hexToBytes_length in *; lia).
    by rewrite substr_app_l by lia.
  - rewrite lookup_app_r by lia. rewrite Hna.
    destruct (decide (j < n + length b / 2)%nat) as [Hj'|Hj'].
    + rewrite !hexToBytes_lookup by lia.
      rewrite substr_app_r by lia. do 4 f_equal. lia.
    + rewrite !lookup_ge_None_2; [done| |];
        rewrite hexToBytes_length, ?Hlen; lia.
Qed.

Lemma hexToBytes_single (c : Z) : hexToBytes [c] = [].
Proof. apply nil_length_inv. by rewrite hexToBytes_length. Qed.

Lemma not_hex_digit_radix c : is_hex_digit c = false -> radix_digit 16 c = None.
Proof.
  unfold is_hex_digit, radix_digit, digit_value. intros Hc.
  repeat case_match; simplify_eq; done || lia.
Qed.

Lemma parseInt_no_number (c1 : Z) (rest : jsstring) :
  begins_no_number c1 = true -> parseInt (c1 :: rest) 16 = None.
Proof.
  unfold begins_no_number. rewrite !andb_true_iff, !negb_true_iff.
  intros [[[Hw Hp] Hm] Hd]. unfold parseInt. cbn [trim_start].
  rewrite Hw. cbn [first_is]. rewrite Hp, Hm. cbn [orb].
  assert (has_hex_prefix (c1 :: rest) = false) as ->.
  { destruct rest as [|x rest]; [done|]. cbn [has_hex_prefix].
    assert ((c1 =? 0x30) = false) as -> by (unfold is_hex_digit in Hd; lia).
    done. }
  change (16 =? 0) with false. change (16 <? 2) with false.
  change (36 <? 16) with false. change (16 =? 16) with true.
  cbn [negb andb orb digits_prefix]. by rewrite not_hex_digit_radix.
Qed.

Lemma hex_digit_is_hex n : 0 <= n < 16 -> is_hex_digit (hex_digit n) = true.
Proof. unfold hex_digit, is_hex_digit. intros Hn. case_match; lia. Qed.

Lemma hex_value_hex_digit n : 0 <= n < 16 -> hex_value (hex_digit n) = n.
Proof. unfold hex_digit, hex_value. intros Hn. repeat case_match; lia. Qed.

Lemma hexToBytes_byte_pair (b : Z) :
  is_byte b = true -> hexToBytes [hex_digit (b / 16); hex_digit (b mod 16)] = [b].
Proof.
  unfold is_byte. intros Hb.
  assert (0 <= b / 16 < 16) as H1 by (Z.div_mod_to_equations; lia).
  assert (0 <= b mod 16 < 16) as H2 by (Z.div_mod_to_equations; lia).
  apply list_eq_same_length with 1%nat; [done|by rewrite hexToBytes_length|].
  intros i x y Hi Hx Hy. assert (i = 0%nat) as -> by lia.
  rewrite (hexToBytes_hex_pair _ 0 (hex_digit (b / 16)) (hex_digit (b mod 16)))
    in Hx; [| |done|done].
  - rewrite !hex_value_hex_digit in Hx by done. simplify_eq/=.
    Z.div_mod_to_equations; lia.
  - repeat constructor; by apply hex_digit_is_hex.
Qed.

(** X1.  Decoding distributes over concatenation after an even number of
    code units. *)
Theorem hexToBytes_of_concatenation (a b : jsstring) (n : nat) :
  length a = (2 * n)%nat -> hexToBytes (a ++ b) = hexToBytes a ++ hexToBytes b.
Proof. apply hexToBytes_concat. Qed.

(** X2.  The last code unit of a string of odd length is ignored: the array
    has no element for it and the store is out of range. *)
Theorem hexToBytes_ignores_an_odd_last_digit (hex : jsstring) (c : Z) (n : nat) :
  length hex = (2 * n)%nat -> hexToBytes (hex ++ [c]) = hexToBytes hex.
Proof.
  intros Hlen.
  by rewrite (hexToBytes_concat hex [c] n), hexToBytes_single, app_nil_r.
Qed.

(** X3.  A pair that begins with a code unit that is neither white space, a
    sign nor a hexadecimal digit is not refused: it decodes to the byte 0. *)
Theorem hexToBytes_undecodable_pair_is_zero
    (hex : jsstring) (i : nat) (c1 c2 : Z) :
  hex !! (2 * i)%nat = Some c1 -> hex !! (2 * i + 1)%nat = Some c2 ->
  begins_no_number c1 = true ->
  hexToBytes hex !! i = Some 0.
Proof.
  intros H1 H2 Hc. apply lookup_lt_Some in H2 as Hlt.
  rewrite hexToBytes_lookup by (apply Nat.div_le_lower_bound; lia).
  rewrite (substr_pair hex (2 * i) c1 c2) by (rewrite <- ?Nat.add_1_r; done).
  by rewrite parseInt_no_number.
Qed.

(** X4.  [hexToBytes] inverts the usual hexadecimal writing of bytes: every
    sequence of bytes is the decoding of its two-digit-per-byte writing. *)
Theorem hexToBytes_inverts_to_hex (bytes : list Z) :
  Forall (fun b => is_byte b = true) bytes -> hexToBytes (to_hex bytes) = bytes.
Proof.
  unfold to_hex. induction 1 as [|b bytes Hb _ IH]; [done|].
  rewrite bind_cons. rewrite (hexToBytes_concat _ _ 1) by done.
  by rewrite hexToBytes_byte_pair, IH.
Qed.

(** ** More on the endpoint *)

Lemma hexToBytes_upper_case (hex : jsstring) (n : nat) :
  Forall (fun c => is_hex_digit c = true) hex -> length hex = (2 * n)%nat ->
  hexToBytes (ascii_upper <$> hex) = hexToBytes hex.
Proof.
  intros Hhex Hlen.
  apply list_eq_same_length with n;
    rewrite ?hexToBytes_length, ?length_fmap, ?Hlen, ?(Nat.mul_comm 2 n),
      ?Nat.div_mul; try done.
  intros i x y Hi Hx Hy.
  destruct (lookup_lt_is_Some_2 hex (2 * i)) as [c1 H1]; [lia|].
  destruct (lookup_lt_is_Some_2 hex (2 * i + 1)) as [c2 H2]; [lia|].
  rewrite (hexToBytes_hex_pair hex i c1 c2) in Hy by done.
  rewrite (hexToBytes_hex_pair _ i (ascii_upper c1) (ascii_upper c2)) in Hx.
  - rewrite !hex_value_upper in Hx
      by (eapply (proj1 (Forall_lookup _ _) Hhex); done). congruence.
  - apply Forall_fmap. eapply Forall_impl; [done|]. apply hex_digit_upper.
  - by rewrite list_lookup_fmap, H1.
  - by rewrite list_lookup_fmap, H2.
Qed.

Lemma random_index_by_half (random : Q) :
  (0 <= random)%Q -> (random < 1)%Q ->
  random_index random = if Qle_bool (1 # 2) random then 1 else 0.
Proof.
  destruct random as [n d]. unfold Qle, Qlt, random_index, Qfloor, Qle_bool.
  cbn. rewrite Pos.mul_1_r. intros H0 H1.
  pose proof (Z.div_mod (n * 2) (Z.pos d) ltac:(lia)).
  pose proof (Z.mod_pos_bound (n * 2) (Z.pos d) ltac:(lia)).
  change (Z.of_nat 2) with 2.
  destruct (Z.leb_spec (1 * Z.pos d) (n * 2)); nia.
Qed.

Lemma element_by_half (random : Q) :
  (0 <= random)%Q -> (random < 1)%Q ->
  element RESPONSES (random_index random)
  = Some (if Qle_bool (1 # 2) random then str "Nah, yeh" else str "Yeh, nah").
Proof.
  intros H0 H1. rewrite random_index_by_half by done.
  by destruct (Qle_bool (1 # 2) random).
Qed.

Section Endpoint.
Context `{host : Platform}.

Lemma post_interactions_unparsed env req random e :
  verifyDiscordSignature env req (Body_text (body_bytes req)) = Return true ->
  JSON_parse (Body_text (body_bytes req)) = Throw e ->
  post_interactions env req random = Throw e.
Proof.
  intros Hv Hp. unfold post_interactions. cbv zeta. by rewrite Hv; cbn; rewrite Hp.
Qed.

(** X7.  The endpoint gives an answer other than the 401 only to a request
    for which [verifyDiscordSignature] returned [true]. *)
Theorem answer_other_than_401_is_verified env req random r :
  post_interactions env req random = Return r ->
  status r <> 401 ->
  verifyDiscordSignature env req (Body_text (body_bytes req)) = Return true.
Proof.
  intros Hr Hs.
  destruct (verifyDiscordSignature env req (Body_text (body_bytes req)))
    as [[|]|e] eqn:Hv; [done| |].
  - rewrite (post_interactions_rejected _ _ _ Hv) in Hr. by simplify_eq.
  - by rewrite (post_interactions_raised _ _ _ _ Hv) in Hr.
Qed.

(** X9.  For a verified request, what [JSON.parse] raises on the body is
    raised by the handler, and the payload [null] makes it raise a
    TypeError: neither is answered with a 400. *)
Theorem unparsable_or_null_payload_raises env req random :
  verifyDiscordSignature env req (Body_text (body_bytes req)) = Return true ->
  (forall e, JSON_parse (Body_text (body_bytes req)) = Throw e ->
     post_interactions env req random = Throw e)
  /\ (JSON_parse (Body_text (body_bytes req)) = Return Null ->
      post_interactions env req random = Throw TypeError).
Proof.
  intros Hv. split.
  - intros e Hp. by apply post_interactions_unparsed.
  - intros Hp. by rewrite (post_interactions_verified _ _ _ _ Hv Hp).
Qed.

(** X10.  The answers of the endpoint are nine: the 401, the 400, the
    acknowledgement of a ping, and a message of type 4 whose content is a
    string of the pool with flags 0 or 64, or the marker and a string of
    the pool with flags 64. *)
Theorem post_interactions_responses env req random r :
  (0 <= random)%Q -> (random < 1)%Q ->
  post_interactions env req random = Return r ->
  r = unauthorized \/ r = unrecognized \/ r = pong
  \/ exists content,
       (content = str "Yeh, nah" \/ content = str "Nah, yeh")
       /\ (r = message content 0 \/ r = message content 64
           \/ r = message ([0xD83C; 0xDFB1; 0x20] ++ content) 64).
Proof.
  intros H0 H1 Hr.
  destruct (element_RESPONSES random H0 H1) as (content & Hc & He).
  destruct (verifyDiscordSignature env req (Body_text (body_bytes req)))
    as [[|]|e] eqn:Hv.
  - destruct (JSON_parse (Body_text (body_bytes req))) as [interaction|e] eqn:Hp.
    + rewrite (post_interactions_verified _ _ _ _ Hv Hp) in Hr.
      unfold interaction_response in Hr. rewrite He in Hr. revert Hr.
      repeat (run_body;
              match goal with
              | |- context [Get ?v ?k] => destruct (Get v k) eqn:?
              | |- context [strict_equals_number ?v ?z] =>
                  destruct (strict_equals_number v z)
              | |- context [strict_equals_string ?v ?z] =>
                  destruct (strict_equals_string v z)
              end);
        run_body; intros Hr; simplify_eq; eauto 10.
    + by rewrite (post_interactions_unparsed _ _ _ _ Hv Hp) in Hr.
  - rewrite (post_interactions_rejected _ _ _ Hv) in Hr. simplify_eq. auto.
  - by rewrite (post_interactions_raised _ _ _ _ Hv) in Hr.
Qed.

End Endpoint.

Lemma falsy_nonempty (s : jsstring) : s <> [] -> falsy (Some s) = false.
Proof. by destruct s. Qed.

Section Verifier.
Context `{host : Platform}.

(** X6.  The message is the timestamp and the body put end to end, so the
    check does not tell where one ends: code units moved from the front of
    the body to the end of the timestamp header give the same outcome. *)
Theorem signature_does_not_bind_the_split
    env req1 req2 (t d body : jsstring) :
  headers req1 !! str "x-signature-ed25519"
  = headers req2 !! str "x-signature-ed25519" ->
  headers req1 !! str "x-signature-timestamp" = Some (t ++ d) ->
  headers req2 !! str "x-signature-timestamp" = Some t ->
  t <> [] ->
  verifyDiscordSignature env req1 body
  = verifyDiscordSignature env req2 (d ++ body).
Proof.
  intros Hs H1 H2 Ht. unfold verifyDiscordSignature. cbv zeta.
  rewrite Hs, H1, H2. rewrite !falsy_nonempty by (done || by destruct t).
  unfold the. cbn [default from_option id]. unfold signed_message.
  by rewrite app_assoc.
Qed.

(** X5.  The outcome of the check is the same for a signature header written
    in upper-case hexadecimal digits. *)
Theorem signature_header_case_is_irrelevant
    env req1 req2 (signature body : jsstring) (n : nat) :
  headers req1 !! str "x-signature-ed25519" = Some signature ->
  headers req2 !! str "x-signature-ed25519" = Some (ascii_upper <$> signature) ->
  headers req1 !! str "x-signature-timestamp"
  = headers req2 !! str "x-signature-timestamp" ->
  Forall (fun c => is_hex_digit c = true) signature ->
  length signature = (2 * n)%nat ->
  verifyDiscordSignature env req1 body = verifyDiscordSignature env req2 body.
Proof.
  intros H1 H2 Ht Hhex Hlen. unfold verifyDiscordSignature. cbv zeta.
  rewrite H1, H2, Ht. unfold the. cbn [default from_option id].
  rewrite (hexToBytes_upper_case signature n) by done.
  by destruct signature.
Qed.

(** X11.  The draw picks the content by halves: a verified command gets
    "Yeh, nah" when the value of [Math.random()] is below 1/2 and "Nah, yeh"
    from 1/2 on. *)
Theorem command_content_by_half
    env req random interaction type data (name : jsstring) (flags : Z) :
  verifyDiscordSignature env req (Body_text (body_bytes req)) = Return true ->
  JSON_parse (Body_text (body_bytes req)) = Return interaction ->
  Get interaction (str "type") = Return type ->
  strict_equals_number type 2 = true ->
  Get interaction (str "data") = Return data ->
  Get data (str "name") = Return (String name) ->
  (name = str "gork" /\ flags = 0)
  \/ (name = str "gork-ephemeral" /\ flags = 64) ->
  (0 <= random)%Q -> (random < 1)%Q ->
  post_interactions env req random
  = Return (message (if Qle_bool (1 # 2) random
                     then str "Nah, yeh" else str "Yeh, nah") flags).
Proof.
  intros Hv Hp Ht H2 Hd Hn Hname H0 H1.
  rewrite (post_interactions_verified _ _ _ _ Hv Hp).
  unfold interaction_response. rewrite Ht. run_body.
  rewrite (strict_equals_number_other _ 2 1 H2) by done. rewrite H2.
  run_body. rewrite Hd. run_body. rewrite Hn. run_body.
  rewrite element_by_half by done.
  destruct Hname as [[-> ->]|[-> ->]]; reflexivity.
Qed.

(** X12.  Of the payload only [type] and [data] are read: two objects with
    the same two properties are answered alike. *)
Theorem only_type_and_data_are_read
    (properties1 properties2 : gmap jsstring value) (random : Q) :
  properties1 !! str "type" = properties2 !! str "type" ->
  properties1 !! str "data" = properties2 !! str "data" ->
  interaction_response (Object properties1) random
  = interaction_response (Object properties2) random.
Proof.
  intros Ht Hd. unfold interaction_response. cbn [Get]. by rewrite Ht, Hd.
Qed.

End Verifier.

(** X8.  A body whose signature was not verified never reaches
    [JSON.parse]: the answer is the same whatever the parser. *)
Theorem unverified_body_is_never_parsed
    (Key : Type) (importKey : list Z -> completion Key)
    (verify : Key -> list Z -> list Z -> completion bool)
    (parse1 parse2 : jsstring -> completion value) env req random :
  let host1 := {| CryptoKey := Key; subtle_importKey := importKey;
                  subtle_verify := verify; JSON_parse := parse1 |} in
  let host2 := {| CryptoKey := Key; subtle_importKey := importKey;
                  subtle_verify := verify; JSON_parse := parse2 |} in
  verifyDiscordSignature (host := host1) env req (Body_text (body_bytes req))
  <> Return true ->
  post_interactions (host := host1) env req random
  = post_interactions (host := host2) env req random.
Proof.
  intros host1 host2 Hv.
  change (verifyDiscordSignature (host := host1) env req
            (Body_text (body_bytes req)))
    with (verifyDiscordSignature (host := host2) env req
            (Body_text (body_bytes req))) in Hv.
  destruct (verifyDiscordSignature (host := host2) env req
              (Body_text (body_bytes req))) as [[|]|e] eqn:Hv2; [done| |].
  - rewrite (post_interactions_rejected (host := host2) _ _ _ Hv2).
    by apply (post_interactions_rejected (host := host1)).
  - rewrite (post_interactions_raised (host := host2) _ _ _ _ Hv2).
    by apply (post_interactions_raised (host := host1)).
Qed.

(** ** The set-up routes *)

Lemma falsy_or_missing (a b : option jsstring) :
  missing a \/ missing b -> falsy a || falsy b = true.
Proof. rewrite orb_true_iff, !falsy_missing. tauto. Qed.

Lemma not_falsy_Some (a : option jsstring) :
  falsy a = false -> exists s, a = Some s /\ the a = s.
Proof. destruct a as [[|c s]|]; [done| |done]. eauto. Qed.

Section Setup.
Context `{network : Network}.

(** X13.  Without an application id or a bot token in the environment the
    registration route answers 400, whatever the network would do. *)
Theorem register_commands_needs_configuration env :
  missing (env !! str "DISCORD_APPLICATION_ID")
  \/ missing (env !! str "DISCORD_BOT_TOKEN") ->
  post_register_commands env
  = Return {| status := 400;
              body := Text (str "Missing DISCORD_APPLICATION_ID or DISCORD_BOT_TOKEN") |}.
Proof.
  intros Hm. unfold post_register_commands. cbv zeta.
  by rewrite (falsy_or_missing _ _ Hm).
Qed.

(** X14.  Without a channel id or a bot token in the environment the button
    route answers 400, whatever the network would do. *)
Theorem send_button_needs_configuration env :
  missing (env !! str "TEST_CHANNEL_ID")
  \/ missing (env !! str "DISCORD_BOT_TOKEN") ->
  post_send_button env
  = Return {| status := 400;
              body := Text (str "Missing TEST_CHANNEL_ID or DISCORD_BOT_TOKEN") |}.
Proof.
  intros Hm. unfold post_send_button. cbv zeta.
  by rewrite (falsy_or_missing _ _ Hm).
Qed.

(** X15.  The two set-up routes answer what the network raises, as long as
    the message of the caught value can be read and written in the answer:
    they do not raise then.  They do raise, a TypeError from the catch
    block, when they go to the network and [fetch] is rejected with
    [undefined] or [null]. *)
Theorem setup_routes_catch_errors env :
  ((forall e, exists message text,
      Get (caught e) (str "message") = Return message
      /\ ToString_value message = Return text) ->
   (exists r, post_register_commands env = Return r)
   /\ (exists r, post_send_button env = Return r))
  /\ ((forall url init, exists e,
         fetch url init = Throw e
         /\ (caught e = Undefined \/ caught e = Null)) ->
      (configured env (str "DISCORD_APPLICATION_ID") ->
       post_register_commands env = Throw TypeError)
      /\ (configured env (str "TEST_CHANNEL_ID") ->
          post_send_button env = Throw TypeError)).
Proof.
  split.
  - intros Hcaught.
    assert (forall e text0,
              exists r,
                call (message ← eval (Get (caught e) (str "message"));
                      text ← eval (ToString_value message);
                      return_ (send (withStatus res 500) (text0 ++ text)))
                = Return r) as Hcatch.
    { intros e text0. destruct (Hcaught e) as (message & text & -> & Ht).
      run_body. rewrite Ht. by eexists. }
    split.
    + unfold post_register_commands. cbv zeta.
      destruct (falsy _ || falsy _); [by eexists|]. run_body.
      destruct (fetch _ _) as [response|e];
        cbn [eval mbind outcome_bind try_catch]; [|apply Hcatch].
      destruct (ok response); cbn [return_ try_catch call]; [by eexists|].
      destruct (fetched_text response) as [error|e];
        cbn [eval mbind outcome_bind try_catch return_ call];
        [by eexists|apply Hcatch].
    + unfold post_send_button. cbv zeta.
      destruct (falsy _ || falsy _); [by eexists|]. run_body.
      destruct (fetch _ _) as [response|e];
        cbn [eval mbind outcome_bind try_catch]; [|apply Hcatch].
      destruct (ok response); cbn [return_ try_catch call]; [by eexists|].
      destruct (fetched_text response) as [error|e];
        cbn [eval mbind outcome_bind try_catch return_ call];
        [by eexists|apply Hcatch].
  - intros Hfetch. split; intros Hc; unfold configured in Hc.
    + unfold post_register_commands. cbv zeta. rewrite Hc. run_body.
      destruct (Hfetch (DISCORD_API_BASE ++ str "/applications/"
                        ++ the (env !! str "DISCORD_APPLICATION_ID")
                        ++ str "/commands")
                  {| method := str "PUT";
                     init_headers := {[
                       str "Authorization" :=
                         str "Bot " ++ the (env !! str "DISCORD_BOT_TOKEN");
                       str "Content-Type" := str "application/json" ]};
                     stringified := commands |}) as (e & -> & Hnull).
      cbn [eval mbind outcome_bind try_catch].
      by destruct Hnull as [-> | ->].
    + unfold post_send_button. cbv zeta. rewrite Hc. run_body.
      destruct (Hfetch (DISCORD_API_BASE ++ str "/channels/"
                        ++ the (env !! str "TEST_CHANNEL_ID")
                        ++ str "/messages")
                  {| method := str "POST";
                     init_headers := {[
                       str "Authorization" :=
                         str "Bot " ++ the (env !! str "DISCORD_BOT_TOKEN");
                       str "Content-Type" := str "application/json" ]};
                     stringified := messageData |}) as (e & -> & Hnull).
      cbn [eval mbind outcome_bind try_catch].
      by destruct Hnull as [-> | ->].
Qed.

(** X16.  The registration route answers with a status in 200-299 only when
    the PUT of the two commands to the commands of the application, under
    the API base and authorised by the bot token, was answered with a
    status in 200-299; the answer is then the success message. *)
Theorem registration_succeeds_only_if_discord_accepts env r :
  post_register_commands env = Return r ->
  200 <= status r <= 299 ->
  exists applicationId botToken init response,
    env !! str "DISCORD_APPLICATION_ID" = Some applicationId
    /\ env !! str "DISCORD_BOT_TOKEN" = Some botToken
    /\ fetch (DISCORD_API_BASE ++ str "/applications/" ++ applicationId
              ++ str "/commands") init = Return response
    /\ method init = str "PUT"
    /\ init_headers init !! str "Authorization" = Some (str "Bot " ++ botToken)
    /\ stringified init = commands
    /\ ok response = true
    /\ r = {| status := 200;
              body := Json (Object {[ str "message" :=
                        String (str "Commands registered successfully!") ]}) |}.
Proof.
  unfold post_register_commands. cbv zeta.
  destruct (falsy (env !! str "DISCORD_APPLICATION_ID")
            || falsy (env !! str "DISCORD_BOT_TOKEN")) eqn:Hg.
  { intros [= <-]. cbn. lia. }
  apply orb_false_iff in Hg as [Ha Hb].
  destruct (not_falsy_Some _ Ha) as (applicationId & Hid & ->).
  destruct (not_falsy_Some _ Hb) as (botToken & Htok & ->).
  run_body.
  destruct (fetch _ _) as [response|e] eqn:Hf;
    cbn [eval mbind outcome_bind try_catch].
  2: { destruct (Get (caught e) (str "message")) as [message|]; [|done].
       run_body. destruct (ToString_value message); [|done].
       intros [= <-]. cbn. lia. }
  destruct (ok response) eqn:Hok; cbn [return_ try_catch call].
  - intros [= <-] _. eexists _, _, _, _. repeat split; done.
  - unfold ok in Hok.
    destruct (fetched_text response) as [error|e];
      cbn [eval mbind outcome_bind try_catch return_ call].
    + intros [= <-]. cbn. lia.
    + destruct (Get (caught e) (str "message")) as [message|]; [|done].
      run_body. destruct (ToString_value message); [|done].
      intros [= <-]. cbn. lia.
Qed.

(** X17.  The button route answers with a status in 200-299 only when the
    POST of the message to the messages of the channel, under the API base
    and authorised by the bot token, was answered with a status in 200-299;
    the answer is then the success message. *)
Theorem button_is_sent_only_if_discord_accepts env r :
  post_send_button env = Return r ->
  200 <= status r <= 299 ->
  exists channelId botToken init response,
    env !! str "TEST_CHANNEL_ID" = Some channelId
    /\ env !! str "DISCORD_BOT_TOKEN" = Some botToken
    /\ fetch (DISCORD_API_BASE ++ str "/channels/" ++ channelId
              ++ str "/messages") init = Return response
    /\ method init = str "POST"
    /\ init_headers init !! str "Authorization" = Some (str "Bot " ++ botToken)
    /\ stringified init = messageData
    /\ ok response = true
    /\ r = {| status := 200;
              body := Json (Object {[ str "message" :=
                        String (str "Button message sent!") ]}) |}.
Proof.
  unfold post_send_button. cbv zeta.
  destruct (falsy (env !! str "TEST_CHANNEL_ID")
            || falsy (env !! str "DISCORD_BOT_TOKEN")) eqn:Hg.
  { intros [= <-]. cbn. lia. }
  apply orb_false_iff in Hg as [Ha Hb].
  destruct (not_falsy_Some _ Ha) as (channelId & Hid & ->).
  destruct (not_falsy_Some _ Hb) as (botToken & Htok & ->).
  run_body.
  destruct (fetch _ _) as [response|e] eqn:Hf;
    cbn [eval mbind outcome_bind try_catch].
  2: { destruct (Get (caught e) (str "message")) as [message|]; [|done].
       run_body. destruct (ToString_value message); [|done].
       intros [= <-]. cbn. lia. }
  destruct (ok response) eqn:Hok; cbn [return_ try_catch call].
  - intros [= <-] _. eexists _, _, _, _. repeat split; done.
  - unfold ok in Hok.
    destruct (fetched_text response) as [error|e];
      cbn [eval mbind outcome_bind try_catch return_ call].
    + intros [= <-]. cbn. lia.
    + destruct (Get (caught e) (str "message")) as [message|]; [|done].
      run_body. destruct (ToString_value message); [|done].
      intros [= <-]. cbn. lia.
Qed.

End Setup.

Section Together.
Context `{host : Platform}.

(** X18.  Every command that the registration route registers is answered
    by the interactions endpoint with a message from the pool. *)
Theorem registered_commands_are_answered
    env req random interaction type data (command : value) (name : jsstring) :
  command ∈ elements_of commands ->
  Get command (str "name") = Return (String name) ->
  verifyDiscordSignature env req (Body_text (body_bytes req)) = Return true ->
  JSON_parse (Body_text (body_bytes req)) = Return interaction ->
  Get interaction (str "type") = Return type ->
  strict_equals_number type 2 = true ->
  Get interaction (str "data") = Return data ->
  Get data (str "name") = Return (String name) ->
  (0 <= random)%Q -> (random < 1)%Q ->
  exists content flags,
    (content = str "Yeh, nah" \/ content = str "Nah, yeh")
    /\ post_interactions env req random = Return (message content flags).
Proof.
  intros Hin Hname Hv Hp Ht H2 Hd Hn H0 H1.
  destruct (element_RESPONSES random H0 H1) as (content & Hc & He).
  rewrite (post_interactions_verified _ _ _ _ Hv Hp).
  unfold interaction_response. rewrite Ht. run_body.
  rewrite (strict_equals_number_other _ 2 1 H2) by done. rewrite H2.
  run_body. rewrite Hd. run_body. rewrite Hn. run_body. rewrite He.
  cbn [elements_of commands] in Hin.
  apply elem_of_cons in Hin as [->|Hin];
    [|apply list_elem_of_singleton in Hin as ->];
    vm_compute in Hname; injection Hname as <-.
  - exists content, 0. split; [done|reflexivity].
  - exists content, 64. split; [done|reflexivity].
Qed.

(** X19.  The button that the button route sends is answered by the
    interactions endpoint: its custom id is the one the handler matches. *)
Theorem sent_button_is_answered
    env req random interaction type data
    (rows row buttons button : value) (custom_id : jsstring) :
  Get messageData (str "components") = Return rows ->
  row ∈ elements_of rows ->
  Get row (str "components") = Return buttons ->
  button ∈ elements_of buttons ->
  Get button (str "custom_id") = Return (String custom_id) ->
  verifyDiscordSignature env req (Body_text (body_bytes req)) = Return true ->
  JSON_parse (Body_text (body_bytes req)) = Return interaction ->
  Get interaction (str "type") = Return type ->
  strict_equals_number type 3 = true ->
  Get interaction (str "data") = Return data ->
  Get data (str "custom_id") = Return (String custom_id) ->
  (0 <= random)%Q -> (random < 1)%Q ->
  exists content,
    (content = str "Yeh, nah" \/ content = str "Nah, yeh")
    /\ post_interactions env req random
       = Return (message ([0xD83C; 0xDFB1; 0x20] ++ content) 64).
Proof.
  intros Hrows Hrow Hbuttons Hbutton Hid Hv Hp Ht H3 Hd Hc H0 H1.
  assert (custom_id = str "ask_gork") as ->.
  { vm_compute in Hrows. injection Hrows as <-.
    cbn [elements_of] in Hrow. apply list_elem_of_singleton in Hrow as ->.
    vm_compute in Hbuttons. injection Hbuttons as <-.
    cbn [elements_of] in Hbutton. apply list_elem_of_singleton in Hbutton as ->.
    vm_compute in Hid. by injection Hid as <-. }
  destruct (element_RESPONSES random H0 H1) as (content & Hcontent & He).
  exists content. split; [done|].
  rewrite (post_interactions_verified _ _ _ _ Hv Hp).
  unfold interaction_response. rewrite Ht. run_body.
  rewrite (strict_equals_number_other _ 3 1 H3) by done.
  rewrite (strict_equals_number_other _ 3 2 H3) by done. rewrite H3.
  run_body. rewrite Hd. run_body. rewrite Hc. run_body. rewrite He.
  reflexivity.
Qed.

End Together.

(** ** The further properties at concrete inputs *)

(** X1 at "00" and "ff". *)
Lemma hexToBytes_of_concatenation_witness :
  hexToBytes (str "00" ++ str "ff") = hexToBytes (str "00") ++ hexToBytes (str "ff").
Proof. apply (hexToBytes_of_concatenation (str "00") (str "ff") 1). reflexivity. Defined.

(** X2 at "abcd" followed by "e". *)
Lemma hexToBytes_ignores_an_odd_last_digit_witness :
  hexToBytes (str "abcd" ++ [0x65]) = hexToBytes (str "abcd").
Proof.
  apply (hexToBytes_ignores_an_odd_last_digit (str "abcd") 0x65 2). reflexivity.
Defined.

(** X3 at "zz". *)
Lemma hexToBytes_undecodable_pair_is_zero_witness :
  hexToBytes (str "zz") !! 0%nat = Some 0.
Proof.
  apply (hexToBytes_undecodable_pair_is_zero (str "zz") 0 0x7A 0x7A);
    reflexivity.
Defined.

(** X4 at three bytes. *)
Lemma hexToBytes_inverts_to_hex_witness :
  hexToBytes (to_hex [0; 255; 122]) = [0; 255; 122].
Proof. apply (hexToBytes_inverts_to_hex [0; 255; 122]). repeat constructor. Defined.

(** X5 at the signature "ab". *)
Lemma signature_header_case_is_irrelevant_witness :
  verifyDiscordSignature (host := example_host accept_all (parsed ping))
    example_env (signed_request (str "ab") (str "1") []) (str "{}")
  = verifyDiscordSignature (host := example_host accept_all (parsed ping))
      example_env (signed_request (str "AB") (str "1") []) (str "{}").
Proof.
  apply (signature_header_case_is_irrelevant
           (host := example_host accept_all (parsed ping))
           example_env
           (signed_request (str "ab") (str "1") [])
           (signed_request (str "AB") (str "1") [])
           (str "ab") (str "{}") 1).
  - reflexivity.
  - reflexivity.
  - reflexivity.
  - repeat constructor.
  - reflexivity.
Defined.

(** X6 at the timestamps "12" and "1". *)
Lemma signature_does_not_bind_the_split_witness :
  verifyDiscordSignature (host := example_host accept_all (parsed ping))
    example_env (signed_request (str "00") (str "1" ++ str "2") []) (str "{}")
  = verifyDiscordSignature (host := example_host accept_all (parsed ping))
      example_env (signed_request (str "00") (str "1") []) (str "2" ++ str "{}").
Proof.
  apply (signature_does_not_bind_the_split
           (host := example_host accept_all (parsed ping))
           example_env
           (signed_request (str "00") (str "1" ++ str "2") [])
           (signed_request (str "00") (str "1") [])
           (str "1") (str "2") (str "{}")).
  - reflexivity.
  - reflexivity.
  - reflexivity.
  - discriminate.
Defined.

(** X7 at the ping. *)
Lemma answer_other_than_401_is_verified_witness :
  verifyDiscordSignature (host := example_host accept_all (parsed ping))
    example_env example_request (Body_text (body_bytes example_request))
  = Return true.
Proof.
  apply (answer_other_than_401_is_verified
           (host := example_host accept_all (parsed ping))
           example_env example_request 0%Q pong).
  - reflexivity.
  - discriminate.
Defined.

(** X8 at a request without headers. *)
Lemma unverified_body_is_never_parsed_witness :
  post_interactions (host := example_host accept_all (parsed ping))
    example_env unsigned_request 0%Q
  = post_interactions (host := example_host accept_all (parsed Null))
      example_env unsigned_request 0%Q.
Proof.
  apply (unverified_body_is_never_parsed (list Z)
           (subtle_importKey (Platform := example_host accept_all (parsed ping)))
           (subtle_verify (Platform := example_host accept_all (parsed ping)))
           (parsed ping) (parsed Null) example_env unsigned_request 0%Q).
  discriminate.
Defined.

(** X9 at the payload [null]. *)
Lemma unparsable_or_null_payload_raises_witness :
  (forall e,
     JSON_parse (Platform := example_host accept_all (parsed Null))
       (Body_text (body_bytes example_request)) = Throw e ->
     post_interactions (host := example_host accept_all (parsed Null))
       example_env example_request 0%Q = Throw e)
  /\ (JSON_parse (Platform := example_host accept_all (parsed Null))
        (Body_text (body_bytes example_request)) = Return Null ->
      post_interactions (host := example_host accept_all (parsed Null))
        example_env example_request 0%Q = Throw TypeError).
Proof.
  apply (unparsable_or_null_payload_raises
           (host := example_host accept_all (parsed Null))
           example_env example_request 0%Q).
  reflexivity.
Defined.

(** X10 at the ping. *)
Lemma post_interactions_responses_witness :
  pong = unauthorized \/ pong = unrecognized \/ pong = pong
  \/ exists content,
       (content = str "Yeh, nah" \/ content = str "Nah, yeh")
       /\ (pong = message content 0 \/ pong = message content 64
           \/ pong = message ([0xD83C; 0xDFB1; 0x20] ++ content) 64).
Proof.
  apply (post_interactions_responses
           (host := example_host accept_all (parsed ping))
           example_env example_request 0%Q pong).
  - discriminate.
  - reflexivity.
  - reflexivity.
Defined.

(** X11 at the command "gork" and the draw 2/3. *)
Lemma command_content_by_half_witness :
  post_interactions
    (host := example_host accept_all (parsed (command (str "gork"))))
    example_env example_request (2 # 3)%Q
  = Return (message (if Qle_bool (1 # 2) (2 # 3)
                     then str "Nah, yeh" else str "Yeh, nah") 0).
Proof.
  apply (command_content_by_half
           (host := example_host accept_all (parsed (command (str "gork"))))
           example_env example_request (2 # 3)%Q
           (command (str "gork")) (num 2)
           (Object {[ str "name" := String (str "gork") ]})
           (str "gork") 0).
  - reflexivity.
  - reflexivity.
  - reflexivity.
  - reflexivity.
  - reflexivity.
  - reflexivity.
  - left. split; reflexivity.
  - discriminate.
  - reflexivity.
Defined.

(** X12 at a ping with and without an [id]. *)
Lemma only_type_and_data_are_read_witness :
  interaction_response (Object {[ str "type" := num 1 ]}) 0%Q
  = interaction_response
      (Object {[ str "type" := num 1; str "id" := String (str "7") ]}) 0%Q.
Proof.
  apply (only_type_and_data_are_read
           {[ str "type" := num 1 ]}
           {[ str "type" := num 1; str "id" := String (str "7") ]} 0%Q);
    reflexivity.
Defined.

(** X13 at an empty environment. *)
Lemma register_commands_needs_configuration_witness :
  post_register_commands (network := example_network None) ∅
  = Return {| status := 400;
              body := Text (str "Missing DISCORD_APPLICATION_ID or DISCORD_BOT_TOKEN") |}.
Proof.
  apply (register_commands_needs_configuration
           (network := example_network None) ∅).
  left. left. reflexivity.
Defined.

(** X14 at an empty environment. *)
Lemma send_button_needs_configuration_witness :
  post_send_button (network := example_network None) ∅
  = Return {| status := 400;
              body := Text (str "Missing TEST_CHANNEL_ID or DISCORD_BOT_TOKEN") |}.
Proof.
  apply (send_button_needs_configuration
           (network := example_network None) ∅).
  left. left. reflexivity.
Defined.

(** X15 at a network that raises an error with a message, and at one whose
    calls are rejected with [undefined]. *)
Lemma setup_routes_catch_errors_witness :
  ((exists r,
      post_register_commands (network := example_network None) setup_env
      = Return r)
   /\ (exists r,
        post_send_button (network := example_network None) setup_env
        = Return r))
  /\ post_register_commands (network := rejecting_network Undefined) setup_env
     = Throw TypeError.
Proof.
  split.
  - apply (proj1 (setup_routes_catch_errors
                    (network := example_network None) setup_env)).
    intros e. exists (String (str "network error")), (str "network error").
    split; reflexivity.
  - apply (proj2 (setup_routes_catch_errors
                    (network := rejecting_network Undefined) setup_env)).
    + intros url init. exists TypeError. split; [reflexivity|].
      left. reflexivity.
    + reflexivity.
Defined.

(** X16 at a network that answers 204. *)
Lemma registration_succeeds_only_if_discord_accepts_witness :
  exists applicationId botToken init response,
    setup_env !! str "DISCORD_APPLICATION_ID" = Some applicationId
    /\ setup_env !! str "DISCORD_BOT_TOKEN" = Some botToken
    /\ fetch (Network := example_network
                (Some {| fetched_status := 204; fetched_text := Return [] |}))
         (DISCORD_API_BASE ++ str "/applications/" ++ applicationId
          ++ str "/commands") init = Return response
    /\ method init = str "PUT"
    /\ init_headers init !! str "Authorization" = Some (str "Bot " ++ botToken)
    /\ stringified init = commands
    /\ ok response = true
    /\ {| status := 200;
          body := Json (Object {[ str "message" :=
                    String (str "Commands registered successfully!") ]}) |}
       = {| status := 200;
            body := Json (Object {[ str "message" :=
                      String (str "Commands registered successfully!") ]}) |}.
Proof.
  apply (registration_succeeds_only_if_discord_accepts
           (network := example_network
              (Some {| fetched_status := 204; fetched_text := Return [] |}))
           setup_env).
  - reflexivity.
  - cbn. lia.
Defined.

(** X17 at a network that answers 200. *)
Lemma button_is_sent_only_if_discord_accepts_witness :
  exists channelId botToken init response,
    setup_env !! str "TEST_CHANNEL_ID" = Some channelId
    /\ setup_env !! str "DISCORD_BOT_TOKEN" = Some botToken
    /\ fetch (Network := example_network
                (Some {| fetched_status := 200; fetched_text := Return [] |}))
         (DISCORD_API_BASE ++ str "/channels/" ++ channelId
          ++ str "/messages") init = Return response
    /\ method init = str "POST"
    /\ init_headers init !! str "Authorization" = Some (str "Bot " ++ botToken)
    /\ stringified init = messageData
    /\ ok response = true
    /\ {| status := 200;
          body := Json (Object {[ str "message" :=
                    String (str "Button message sent!") ]}) |}
       = {| status := 200;
            body := Json (Object {[ str "message" :=
                      String (str "Button message sent!") ]}) |}.
Proof.
  apply (button_is_sent_only_if_discord_accepts
           (network := example_network
              (Some {| fetched_status := 200; fetched_text := Return [] |}))
           setup_env).
  - reflexivity.
  - cbn. lia.
Defined.

(** X18 at the second of the registered commands. *)
Lemma registered_commands_are_answered_witness :
  exists content flags,
    (content = str "Yeh, nah" \/ content = str "Nah, yeh")
    /\ post_interactions
         (host := example_host accept_all (parsed (command (str "gork-ephemeral"))))
         example_env example_request (1 # 4)%Q
       = Return (message content flags).
Proof.
  apply (registered_commands_are_answered
           (host := example_host accept_all
                      (parsed (command (str "gork-ephemeral"))))
           example_env example_request (1 # 4)%Q
           (command (str "gork-ephemeral")) (num 2)
           (Object {[ str "name" := String (str "gork-ephemeral") ]})
           (Object {[ str "name" := String (str "gork-ephemeral");
                      str "description" :=
                        String (str "Get a private response from Gork (only you can see it)");
                      str "type" := num 1 ]})
           (str "gork-ephemeral")).
  - right. left.
  - reflexivity.
  - reflexivity.
  - reflexivity.
  - reflexivity.
  - reflexivity.
  - reflexivity.
  - reflexivity.
  - discriminate.
  - reflexivity.
Defined.

(** X19 at the button of the message. *)
Lemma sent_button_is_answered_witness :
  exists content,
    (content = str "Yeh, nah" \/ content = str "Nah, yeh")
    /\ post_interactions
         (host := example_host accept_all (parsed (component (str "ask_gork"))))
         example_env example_request (1 # 4)%Q
       = Return (message ([0xD83C; 0xDFB1; 0x20] ++ content) 64).
Proof.
  apply (sent_button_is_answered
           (host := example_host accept_all
                      (parsed (component (str "ask_gork"))))
           example_env example_request (1 # 4)%Q
           (component (str "ask_gork")) (num 3)
           (Object {[ str "custom_id" := String (str "ask_gork") ]})
           (Array [
              Object {[
                str "type" := num 1;
                str "components" := Array [
                  Object {[
                    str "type" := num 2;
                    str "style" := num 1;
                    str "label" := String (str "Ask Gork");
                    str "custom_id" := String (str "ask_gork");
                    str "emoji" := Object {[ str "name" := String [0xD83C; 0xDFB1] ]} ]} ] ]} ])
           (Object {[
                str "type" := num 1;
                str "components" := Array [
                  Object {[
                    str "type" := num 2;
                    str "style" := num 1;
                    str "label" := String (str "Ask Gork");
                    str "custom_id" := String (str "ask_gork");
                    str "emoji" := Object {[ str "name" := String [0xD83C; 0xDFB1] ]} ]} ] ]})
           (Array [
                  Object {[
                    str "type" := num 2;
                    str "style" := num 1;
                    str "label" := String (str "Ask Gork");
                    str "custom_id" := String (str "ask_gork");
                    str "emoji" := Object {[ str "name" := String [0xD83C; 0xDFB1] ]} ]} ])
           (Object {[
                    str "type" := num 2;
                    str "style" := num 1;
                    str "label" := String (str "Ask Gork");
                    str "custom_id" := String (str "ask_gork");
                    str "emoji" := Object {[ str "name" := String [0xD83C; 0xDFB1] ]} ]})
           (str "ask_gork")).
  - reflexivity.
  - left.
  - reflexivity.
  - left.
  - reflexivity.
  - reflexivity.
  - reflexivity.
  - reflexivity.
  - reflexivity.
  - reflexivity.
  - reflexivity.
  - discriminate.
  - reflexivity.
Defined.
